(** * The spatial estimation engine of the ward map (src/components/MapView.jsx)

    A shallow embedding of the matching, centroid, inverse-distance
    interpolation and traffic-scenario code of the [MapView] component, and
    the properties of that code.

    JavaScript numbers are IEEE 754 binary64 values; they are modelled by
    Rocq's primitive floats, so every arithmetic step below rounds exactly as
    the program's does. *)

From Stdlib Require Import ZArith List String Ascii Bool Lia.
From Stdlib Require Import Floats DecimalString.
From Stdlib Require Uint63 DecimalPos DecimalZ FinFun.
From Stdlib Require Import Sorted Permutation.
Import ListNotations.

#[local] Set Warnings "-inexact-float".

Local Open Scope float_scope.

(* ================================================================= *)
(** ** JavaScript numbers *)

Module JS.

(** Decimal literals of the source, as the nearest binary64 value. *)
Definition c_0_0001 : float := 0.0001.
Definition c_0_40 : float := 0.40.
Definition c_0_17 : float := 0.17.
Definition c_100 : float := 100.
Definition c_180 : float := 180.

(** An integer of magnitude below 2^63 as a number (exact up to 2^53). *)
Definition of_Z (z : Z) : float :=
  match z with
  | Z0 => zero
  | Zpos _ => of_uint63 (Uint63.of_Z z)
  | Zneg p => - of_uint63 (Uint63.of_Z (Zpos p))
  end.

(** [Math.round]: the integral number nearest to [x], a tie going towards
    +infinity; NaN, the infinities and the zeros are returned as they are,
    and a result of zero keeps the sign of [x].  The value of a finite [x]
    is [m * 2^e]; for [e >= 0] it is integral already, otherwise the
    result is [floor (m / 2^k + 1/2)] with [k = -e]. *)
Definition Math_round (x : float) : float :=
  match Prim2SF x with
  | S754_finite s m e =>
      if (0 <=? e)%Z then x
      else
        let k := (- e)%Z in
        let n := if s then Zneg m else Zpos m in
        let r := ((2 * n + 2 ^ k) / 2 ^ (k + 1))%Z in
        if (r =? 0)%Z then (if s then neg_zero else zero) else of_Z r
  | _ => x
  end.

(** [Math.max] of two numbers: NaN when either is NaN, and +0 above -0. *)
Definition Math_max (x y : float) : float :=
  if is_nan x || is_nan y then nan
  else if x <? y then y
  else if y <? x then x
  else if get_sign x then y else x.

(** [Math.sqrt] is the correctly rounded square root. *)
Definition Math_sqrt (x : float) : float := PrimFloat.sqrt x.

(** [Math.pow(x, 2)], the only exponent the source uses: the square. *)
Definition Math_pow2 (x : float) : float := x * x.

(** The remainder operator [x % y]: the exact value of
    [x - y * trunc (x / y)], with the sign of the dividend.  Both operands
    are brought to a common exponent [e], where the remainder is one of
    integers. *)
Definition js_mod (x y : float) : float :=
  match Prim2SF x, Prim2SF y with
  | S754_nan, _ | _, S754_nan => nan
  | S754_infinity _, _ => nan
  | _, S754_zero _ => nan
  | S754_zero _, _ => x
  | S754_finite _ _ _, S754_infinity _ => x
  | S754_finite s mx ex, S754_finite _ my ey =>
      let e := Z.min ex ey in
      let X := (Zpos mx * 2 ^ (ex - e))%Z in
      let Y := (Zpos my * 2 ^ (ey - e))%Z in
      match (X mod Y)%Z with
      | Zpos r => SF2Prim (S754_finite s r e)
      | _ => if s then neg_zero else zero
      end
  end.

(** *** Values other than numbers

    The identifying fields of the data (ids, ward numbers, names) hold
    strings, integers, or nothing.  [JInt z] is the Number that the integer
    literal [z] denotes: [z] itself up to 2^53, the nearest binary64 value
    beyond (see [Number_of_integer] below). *)
Inductive jsval : Type :=
  | JUndefined
  | JNull
  | JBool (b : bool)
  | JInt (z : Z)
  | JStr (s : string).

(** A numeric field of a JSON record: missing, [null], or a number. *)
Inductive jsnum : Type :=
  | NUndefined
  | NNull
  | Num (x : float).

(** ToBoolean, the test behind [if (v)], [v || w] and [!v]. *)
Definition truthy (v : jsval) : bool :=
  match v with
  | JUndefined | JNull => false
  | JBool b => b
  | JInt z => negb (z =? 0)%Z
  | JStr s => negb (String.eqb s "")
  end.

(** [v || w] *)
Definition or_else (v w : jsval) : jsval := if truthy v then v else w.

(** *** Integral Numbers and their printing

    An integer literal denotes the binary64 value nearest to it, ties going
    to the even significand; from 2^1024 - 2^970 on that value is an
    infinity. *)
Inductive IntegerNumber : Type :=
  | FiniteNumber (v : Z)
  | InfiniteNumber (negative : bool).

(** The nearest integer of at most 53 significant bits to [n >= 0]. *)
Definition round_to_53_bits (n : Z) : Z :=
  let bits := (Z.log2 n + 1)%Z in
  if (bits <=? 53)%Z then n
  else
    let shift := (bits - 53)%Z in
    let q := (n / 2 ^ shift)%Z in
    let r := (n mod 2 ^ shift)%Z in
    let half := (2 ^ (shift - 1))%Z in
    ((if (half <? r)%Z || ((r =? half)%Z && Z.odd q) then q + 1 else q) * 2 ^ shift)%Z.

Definition Number_of_integer (z : Z) : IntegerNumber :=
  let v := round_to_53_bits (Z.abs z) in
  if (v <? 2 ^ 1024)%Z then FiniteNumber (Z.sgn z * v) else InfiniteNumber (z <? 0)%Z.

Definition IntegerNumber_eqb (a b : IntegerNumber) : bool :=
  match a, b with
  | FiniteNumber x, FiniteNumber y => (x =? y)%Z
  | InfiniteNumber x, InfiniteNumber y => Bool.eqb x y
  | _, _ => false
  end.

(** The decimal digits of an integer, with a minus sign when negative. *)
Definition digits (v : Z) : string := NilZero.string_of_int (Z.to_int v).

Fixpoint zeros (n : nat) : string :=
  match n with
  | O => ""
  | S n => String "0" (zeros n)
  end.

(** Number::toString picks, for a Number [v], integers [n], [k] and [s] with
    [k] as small as possible, [s] of [k] digits, and [s * 10^(n-k)] denoting
    [v]; among several such [s] the one nearest to [v], and the even one of
    two equally near.  For an integral [v] of [D] digits, [n] is [D] or
    [D + 1] and [s] is the [k]-digit prefix of [v] or its successor. *)
Definition denoting (v D k : Z) : list (Z * Z) :=
  filter (fun ns => let '(n, s) := ns in
            (10 ^ (k - 1) <=? s)%Z && (s <? 10 ^ k)%Z &&
            (round_to_53_bits (s * 10 ^ (n - k)) =? v)%Z)
    [(D, v / 10 ^ (D - k)); (D, v / 10 ^ (D - k) + 1);
     (D + 1, v / 10 ^ (D + 1 - k)); (D + 1, v / 10 ^ (D + 1 - k) + 1)]%Z.

Definition closer (v k : Z) (a b : Z * Z) : Z * Z :=
  let da := Z.abs (snd a * 10 ^ (fst a - k) - v) in
  let db := Z.abs (snd b * 10 ^ (fst b - k) - v) in
  if (da <? db)%Z then a
  else if (db <? da)%Z then b
  else if Z.even (snd a) then a else b.

(** The [(k, s, n)] of Number::toString for an integral [v] above 2^53;
    seventeen digits always suffice for a binary64 value. *)
Definition shortest (v : Z) : option (Z * Z * Z) :=
  let D := Z.of_nat (String.length (digits v)) in
  fold_left
    (fun found k =>
       match found with
       | Some _ => found
       | None =>
           match denoting v D k with
           | [] => None
           | c :: cs => let '(n, s) := fold_left (closer v k) cs c in Some (k, s, n)
           end
       end)
    (map Z.of_nat (seq 1 (Nat.min 17 (String.length (digits v))))) None.

(** Up to 21 digits the number is written out, the digits of [s] followed by
    zeros; from 1e21 on it is written with an exponent. *)
Definition print_large (v : Z) : string :=
  match shortest v with
  | Some (k, s, n) =>
      if (n <=? 21)%Z then (digits s ++ zeros (Z.to_nat (n - k)))%string
      else
        match digits s with
        | String d EmptyString => String d ("e+" ++ digits (n - 1))
        | String d rest => String d ("." ++ rest ++ "e+" ++ digits (n - 1))
        | EmptyString => digits v
        end
  | None => digits v
  end.

(** [String(z)] of the Number that the integer [z] denotes.  Up to 2^53 every
    integer is a Number and prints as its own digits. *)
Definition Number_toString (z : Z) : string :=
  if (Z.abs z <=? 2 ^ 53)%Z then digits z
  else
    match Number_of_integer z with
    | FiniteNumber v => if (v <? 0)%Z then String "-" (print_large (- v)) else print_large v
    | InfiniteNumber negative => if negative then "-Infinity" else "Infinity"
    end.

(** [String(v)], which is also [v.toString()] where [v] is neither
    [undefined] nor [null]. *)
Definition String_ (v : jsval) : string :=
  match v with
  | JUndefined => "undefined"
  | JNull => "null"
  | JBool true => "true"
  | JBool false => "false"
  | JInt z => Number_toString z
  | JStr s => s
  end.

(** [a === b] on two values of the kinds above; two integers are compared as
    the Numbers they denote. *)
Definition strict_eq (a b : jsval) : bool :=
  match a, b with
  | JUndefined, JUndefined | JNull, JNull => true
  | JBool x, JBool y => Bool.eqb x y
  | JInt x, JInt y => IntegerNumber_eqb (Number_of_integer x) (Number_of_integer y)
  | JStr x, JStr y => String.eqb x y
  | _, _ => false
  end.

(** ToNumber of a numeric field: [undefined] is NaN and [null] is +0. *)
Definition ToNumber (v : jsnum) : float :=
  match v with
  | NUndefined => nan
  | NNull => zero
  | Num x => x
  end.

(** [obj[key]] of an object whose properties are numeric fields, listed in
    insertion order. *)
Fixpoint get_property (obj : list (string * jsnum)) (key : string) : jsnum :=
  match obj with
  | [] => NUndefined
  | (k, v) :: rest => if String.eqb k key then v else get_property rest key
  end.

(** [s.charCodeAt(0)] of a one-character string. *)
Definition charCodeAt0 (c : ascii) : float := of_Z (Z.of_N (N_of_ascii c)).

(** The outcome of running a piece of code: a value, or a TypeError thrown
    by reading a property of [undefined]. *)
Inductive completion (A : Type) : Type :=
  | Return (a : A)
  | TypeError.
Arguments Return {A} a.
Arguments TypeError {A}.

Definition bind {A B} (c : completion A) (k : A -> completion B) : completion B :=
  match c with
  | Return a => k a
  | TypeError => TypeError
  end.

End JS.

Notation "x <- c ;; k" := (JS.bind c (fun x => k))
  (at level 61, c at next level, right associativity).

Import JS.

(* ================================================================= *)
(** ** The data *)

Module LatLon.
Record t : Type := mk { lat : float; lon : float }.
End LatLon.

(** A monitoring station, as the backend lists it. *)
Module Station.
Record t : Type := mk {
  lat : float;
  lon : float;
  aqi : jsnum;
  pm25 : jsnum;
  pm10 : jsnum;
  no2 : jsnum;
  so2 : jsnum;
  co : jsnum;
  o3 : jsnum
}.

(** [station[key]] *)
Definition get (station : t) (key : string) : jsnum :=
  if String.eqb key "pm25" then pm25 station
  else if String.eqb key "pm10" then pm10 station
  else if String.eqb key "no2" then no2 station
  else if String.eqb key "so2" then so2 station
  else if String.eqb key "co" then co station
  else if String.eqb key "o3" then o3 station
  else if String.eqb key "aqi" then aqi station
  else if String.eqb key "lat" then Num (lat station)
  else if String.eqb key "lon" then Num (lon station)
  else NUndefined.
End Station.

(** A ward record: what the backend lists, and what a click hands to
    [onWardClick]. *)
Module Ward.
Record t : Type := mk {
  id : jsval;
  name : jsval;
  ward_no : jsval;
  aqi : float;
  dominant_source : jsval;
  pollution_breakdown : list (string * float);
  pollutants : list (string * jsnum);
  recommendations : list string;
  coordinates : LatLon.t;
  population : float;
  area_sqkm : float;
  trend : string;
  last_updated : string
}.
End Ward.

(** A GeoJSON position [[lon, lat]]: [c[0]] is [fst c], [c[1]] is [snd c]. *)
Definition Position : Type := (float * float)%type.

Inductive Geometry : Type :=
  | Polygon (coordinates : list (list Position))
  | MultiPolygon (coordinates : list (list (list Position))).

Module Feature.
Record Properties : Type := mkProperties {
  Ward_No : jsval;
  Ward_Name : jsval
}.
Record t : Type := mk {
  id : jsval;
  properties : option Properties;
  geometry : option Geometry
}.
End Feature.

(** What [getFeatureStyle] returns. *)
Record Style : Type := mkStyle {
  fillColor : string;
  fillOpacity : float;
  color : string;
  weight : float;
  opacity : float
}.

(** The values interpolated into the tooltip's markup: the name, the AQI
    and its colour, whether the "(Estimated)" line is shown, and the
    dominant source shown for a ward of the backend. *)
Record Tooltip : Type := mkTooltip {
  tt_wardName : jsval;
  tt_color : string;
  tt_aqi : float;
  tt_isEstimated : bool;
  tt_dominant_source : option jsval
}.

(** The two calls a click makes. *)
Record Click : Type := mkClick {
  setSelectedFeatureId : jsval;
  onWardClick : Ward.t
}.

(** The argument of a [layer.setStyle] call: the options it sets. *)
Record PathOptions : Type := mkPathOptions {
  set_fillOpacity : option float;
  set_color : option string;
  set_weight : option float;
  set_opacity : option float
}.

(** What [onEachFeature] binds to a layer.  The click handler reads the
    clock ([new Date().toISOString()]), which it is given as [now]. *)
Record Layer : Type := mkLayer {
  bindTooltip : Tooltip;
  on_click : string -> completion Click;
  on_mouseover : PathOptions;
  on_mouseout : PathOptions
}.

(* ================================================================= *)
(** ** The component *)

(** Get color based on AQI value (returns hex color) *)
Definition getAqiHexColor (aqi : float) : string :=
  if aqi <=? 50 then "#22c55e"
  else if aqi <=? 100 then "#eab308"
  else if aqi <=? 150 then "#f97316"
  else if aqi <=? 200 then "#ef4444"
  else if aqi <=? 300 then "#a855f7"
  else "#881337".

(** The distance weighting both interpolation loops compute for a station
    (lines 146-150 and 234-238). *)
Definition idw_weight (station : Station.t) (centroid : LatLon.t) : float :=
  let dist :=
    Math_sqrt (Math_pow2 (Station.lat station - LatLon.lat centroid) +
               Math_pow2 (Station.lon station - LatLon.lon centroid)) in
  1 / Math_max (dist * dist) c_0_0001.

Definition pollutantKeys : list string :=
  ["pm25"; "pm10"; "no2"; "so2"; "co"; "o3"]%string.

Section MapView.

(** The props and the state the callbacks close over. *)
Variable wards : list Ward.t.
Variable trafficReduction : float.
Variable stations : list Station.t.
Variable selectedFeatureId : jsval.

(** Match GeoJSON feature to ward data - ONLY by Ward_No property.
    Returns null if no exact match to avoid showing wrong ward data. *)
Definition findWardForFeature (feature : option Feature.t) : option Ward.t :=
  match feature with
  | None => None
  | Some feature =>
      if (List.length wards =? 0)%nat then None
      else
        match Feature.properties feature with
        | Some properties =>
            if truthy (Feature.Ward_No properties) then
              let wardNo := String_ (Feature.Ward_No properties) in
              match find (fun w => String.eqb (String_ (Ward.ward_no w)) wardNo) wards with
              | Some matchedWard => Some matchedWard
              | None => None
              end
            else None
        | None => None
        end
  end.

(** Calculate centroid of a feature.  [coordinates[0][0]] of a
    MultiPolygon with no part reads a property of [undefined]. *)
Definition getFeatureCentroid (feature : option Feature.t)
  : completion (option LatLon.t) :=
  match feature with
  | None => Return None
  | Some feature =>
      match Feature.geometry feature with
      | None => Return None
      | Some geometry =>
          coords <-
            match geometry with
            | MultiPolygon coordinates =>
                match coordinates with
                | [] => TypeError
                | part :: _ => Return (hd_error part)
                end
            | Polygon coordinates => Return (hd_error coordinates)
            end ;;
          match coords with
          | None | Some [] => Return None
          | Some coords =>
              let sumLon := fold_left (fun sum c => sum + fst c) coords 0 in
              let sumLat := fold_left (fun sum c => sum + snd c) coords 0 in
              let n := of_Z (Z.of_nat (List.length coords)) in
              Return (Some (LatLon.mk (sumLat / n) (sumLon / n)))
          end
      end
  end.

(** The traffic reduction simulation at the end of [getInterpolatedAqi]
    (lines 157-164). *)
Definition applyTrafficReduction (rawAqi : float) : float :=
  if 0 <? trafficReduction then
    let reductionFactor := c_0_40 * (trafficReduction / c_100) in
    Math_round (rawAqi * (1 - reductionFactor))
  else rawAqi.

(** The accumulation loop of [getInterpolatedAqi] (lines 144-153): the
    pair [(weightSum, valueSum)] after [stations.forEach]. *)
Definition aqiSums (centroid : LatLon.t) : float * float :=
  fold_left
    (fun '(weightSum, valueSum) station =>
       let weight := idw_weight station centroid in
       (weightSum + weight, valueSum + weight * ToNumber (Station.aqi station)))
    stations (0, 0).

(** Get interpolated AQI for wards not in backend data *)
Definition getInterpolatedAqi (feature : option Feature.t) : completion float :=
  if (List.length stations =? 0)%nat then Return c_180
  else
    centroid <- getFeatureCentroid feature ;;
    match centroid with
    | None => Return c_180
    | Some centroid =>
        let '(weightSum, valueSum) := aqiSums centroid in
        let rawAqi :=
          if 0 <? weightSum then Math_round (valueSum / weightSum) else c_180 in
        Return (applyTrafficReduction rawAqi)
    end.

(** Style function for GeoJSON features *)
Definition getFeatureStyle (feature : Feature.t) : completion Style :=
  let ward := findWardForFeature (Some feature) in
  aqi <- match ward with
         | Some ward => Return (Ward.aqi ward)
         | None => getInterpolatedAqi (Some feature)
         end ;;
  let color := getAqiHexColor aqi in
  let isSelected := strict_eq (Feature.id feature) selectedFeatureId in
  Return {|
    fillColor := color;
    fillOpacity := if isSelected then 0.8 else 0.5;
    color := if isSelected then "#ffffff" else "rgba(255,255,255,0.3)";
    weight := if isSelected then 3 else 1;
    opacity := if isSelected then 1 else 0.3
  |}.

(** The accumulation loop of one pollutant key (lines 230-242). *)
Definition pollutantSums (centroid : LatLon.t) (key : string) : float * float :=
  fold_left
    (fun '(weightSum, valueSum) station =>
       match Station.get station key with
       | Num value =>
           if 0 <? value then
             let weight := idw_weight station centroid in
             (weightSum + weight, valueSum + weight * value)
           else (weightSum, valueSum)
       | NNull | NUndefined => (weightSum, valueSum)
       end)
    stations (0, 0).

(** Interpolate pollutants from nearby stations (lines 226-244). *)
Definition interpolatedPollutants (centroid : LatLon.t) : list (string * jsnum) :=
  map (fun key =>
         let '(weightSum, valueSum) := pollutantSums centroid key in
         (key,
          if 0 <? weightSum
          then Num (Math_round (valueSum / weightSum * c_100) / c_100)
          else NNull))
      pollutantKeys.

(** [feature.properties?.Ward_No] *)
Definition feature_Ward_No (feature : Feature.t) : jsval :=
  match Feature.properties feature with
  | Some properties => Feature.Ward_No properties
  | None => JUndefined
  end.

(** [feature.properties?.Ward_Name] *)
Definition feature_Ward_Name (feature : Feature.t) : jsval :=
  match Feature.properties feature with
  | Some properties => Feature.Ward_Name properties
  | None => JUndefined
  end.

(** Vary population and area based on ward number hash (line 247). *)
Definition wardNoHash (feature : Feature.t) : float :=
  fold_left (fun a c => a + charCodeAt0 c)
    (list_ascii_of_string (String_ (or_else (feature_Ward_No feature) (JStr "0"))))
    0.

(** Event handlers for each GeoJSON feature: the tooltip that is bound
    and the handlers that are registered. *)
Definition onEachFeature (feature : Feature.t) : completion Layer :=
  let ward := findWardForFeature (Some feature) in
  let wardName :=
    or_else
      (or_else (feature_Ward_Name feature)
         (match ward with Some ward => Ward.name ward | None => JUndefined end))
      (JStr "Unknown Ward") in
  aqi <- match ward with
         | Some ward => Return (Ward.aqi ward)
         | None => getInterpolatedAqi (Some feature)
         end ;;
  let color := getAqiHexColor aqi in
  let isEstimated := match ward with Some _ => false | None => true end in
  Return {|
    bindTooltip := {|
      tt_wardName := wardName;
      tt_color := color;
      tt_aqi := aqi;
      tt_isEstimated := isEstimated;
      tt_dominant_source :=
        match ward with
        | Some ward => Some (Ward.dominant_source ward)
        | None => None
        end
    |};
    on_click := fun now =>
      match ward with
      | Some ward =>
          Return {| setSelectedFeatureId := Feature.id feature; onWardClick := ward |}
      | None =>
          c <- getFeatureCentroid (Some feature) ;;
          let centroid :=
            match c with
            | Some centroid => centroid
            | None => LatLon.mk 28.7041 77.1025
            end in
          let population := 80000 + js_mod (wardNoHash feature * 1234) 400000 in
          let area := 2.5 + js_mod (wardNoHash feature * c_0_17) 12 in
          Return {|
            setSelectedFeatureId := Feature.id feature;
            onWardClick := {|
              Ward.id := Feature.id feature;
              Ward.name := wardName;
              Ward.ward_no := or_else (feature_Ward_No feature) (JStr "N/A");
              Ward.aqi := aqi;
              Ward.dominant_source := JStr "Estimated";
              Ward.pollution_breakdown :=
                [("traffic", 30); ("industrial", 20); ("construction_dust", 20);
                 ("biomass_burning", 15); ("other", 15)]%string;
              Ward.pollutants := interpolatedPollutants centroid;
              Ward.recommendations :=
                ["AQI data estimated from nearby stations";
                 "Wear N95 mask when outdoors";
                 "Limit outdoor activities during peak hours";
                 "Keep windows closed";
                 "Use air purifiers indoors"]%string;
              Ward.coordinates := centroid;
              Ward.population := population;
              Ward.area_sqkm := Math_round (area * 10) / 10;
              Ward.trend := "Stable";
              Ward.last_updated := now
            |}
          |}
      end;
    on_mouseover := {|
      set_fillOpacity := Some 0.8;
      set_color := None;
      set_weight := Some 2;
      set_opacity := Some 0.6
    |};
    on_mouseout :=
      let isSelected := strict_eq (Feature.id feature) selectedFeatureId in
      {|
        set_fillOpacity := Some (if isSelected then 0.8 else 0.5);
        set_color := Some (if isSelected then "#ffffff" else "rgba(255,255,255,0.3)")%string;
        set_weight := Some (if isSelected then 3 else 1);
        set_opacity := Some (if isSelected then 1 else 0.3)
      |}
  |}.

End MapView.

(** The record a click on [feature] hands to [onWardClick], when the layer
    was bound by [onEachFeature] and clicked at time [now]. *)
Definition resolve (wards : list Ward.t) (trafficReduction : float)
    (stations : list Station.t) (selectedFeatureId : jsval)
    (feature : Feature.t) (now : string) : completion Ward.t :=
  layer <- onEachFeature wards trafficReduction stations selectedFeatureId feature ;;
  click <- on_click layer now ;;
  Return (onWardClick click).

(* ================================================================= *)
(** ** The specification's components, in its own words *)

Module Spec.

(** WardMatcher: compare the feature's [Ward_No] (stringified) against
    each ward's number (stringified) and return the first exact match;
    [None] when the feature has no [Ward_No] or no ward matches. *)
Definition WardMatcher (feature : Feature.t) (wards : list Ward.t) : option Ward.t :=
  match feature_Ward_No feature with
  | JUndefined => None
  | Ward_No =>
      find (fun w => String.eqb (String_ (Ward.ward_no w)) (String_ Ward_No)) wards
  end.

(** The outer ring: the first ring, of the first part for a multi-part
    geometry. *)
Definition outer_ring (g : Geometry) : option (list Position) :=
  match g with
  | Polygon rings => hd_error rings
  | MultiPolygon parts =>
      match parts with
      | part :: _ => hd_error part
      | [] => None
      end
  end.

(** The arithmetic mean of a sequence of numbers. *)
Definition mean (xs : list float) : float :=
  fold_left PrimFloat.add xs 0 / of_Z (Z.of_nat (List.length xs)).

(** GeometryCentroid: the mean latitude and mean longitude of the outer
    ring's vertices; [None] if the geometry is absent or the ring is
    empty. *)
Definition GeometryCentroid (feature : Feature.t) : option LatLon.t :=
  match Feature.geometry feature with
  | None => None
  | Some g =>
      match outer_ring g with
      | None | Some [] => None
      | Some ring => Some (LatLon.mk (mean (map snd ring)) (mean (map fst ring)))
      end
  end.

(** A station reports a channel when its reading is defined. *)
Definition reports (key : string) (station : Station.t) : bool :=
  match Station.get station key with
  | Num _ => true
  | NNull | NUndefined => false
  end.

(** The IDW weight: [1 / max(distanceSquared, epsilon)]. *)
Definition weight (station : Station.t) (point : LatLon.t) : float :=
  let distanceSquared :=
    (Station.lat station - LatLon.lat point) * (Station.lat station - LatLon.lat point) +
    (Station.lon station - LatLon.lon point) * (Station.lon station - LatLon.lon point) in
  1 / Math_max distanceSquared c_0_0001.

(** [weightSum] and [weightedValueSum] accumulated over the stations of
    [contributors], each with the weight [w]. *)
Definition sums (w : Station.t -> LatLon.t -> float) (key : string)
    (point : LatLon.t) (contributors : list Station.t) : float * float :=
  fold_left
    (fun acc station =>
       (fst acc + w station point,
        snd acc + w station point * ToNumber (Station.get station key)))
    contributors (0, 0).

(** IDWInterpolator's accumulation: over the stations with a defined
    value for the channel. *)
Definition IDW_sums (key : string) (point : LatLon.t) (stations : list Station.t)
  : float * float :=
  sums weight key point (filter (reports key) stations).

(** ScenarioAdjuster *)
Definition ScenarioAdjuster (rawValue trafficReductionPercent : float) : float :=
  if trafficReductionPercent <=? 0 then rawValue
  else
    let reductionFactor := c_0_40 * (trafficReductionPercent / c_100) in
    Math_round (rawValue * (1 - reductionFactor)).

(** IDWInterpolator's result from the two sums, for the AQI channel. *)
Definition IDW_result_aqi (s : float * float) : float :=
  if 0 <? fst s then Math_round (snd s / fst s) else c_180.

(** IDWInterpolator's result from the two sums, for a pollutant channel. *)
Definition IDW_result_pollutant (s : float * float) : jsnum :=
  if 0 <? fst s then Num (Math_round (snd s / fst s)) else NNull.

(** FeatureResolver, steps 2 and 3: the interpolation at the centroid,
    or at the fixed fallback point when there is none, then the scenario
    adjustment. *)
Definition FeatureResolver_aqi (feature : Feature.t) (stations : list Station.t)
    (trafficReductionPercent : float) : float :=
  let point :=
    match GeometryCentroid feature with
    | Some centroid => centroid
    | None => LatLon.mk 28.7041 77.1025
    end in
  ScenarioAdjuster (IDW_result_aqi (IDW_sums "aqi" point stations))
    trafficReductionPercent.

End Spec.

(* ================================================================= *)
(** ** Notions the properties are stated with *)

(** The guard of the pollutant loop (line 233): the reading is a number
    above zero. *)
Definition contributes (key : string) (station : Station.t) : bool :=
  match Station.get station key with
  | Num value => 0 <? value
  | NNull | NUndefined => false
  end.

(** Two ward records that agree on every field but [last_updated]. *)
Definition same_but_timestamp (a b : Ward.t) : Prop :=
  Ward.id a = Ward.id b /\
  Ward.name a = Ward.name b /\
  Ward.ward_no a = Ward.ward_no b /\
  Ward.aqi a = Ward.aqi b /\
  Ward.dominant_source a = Ward.dominant_source b /\
  Ward.pollution_breakdown a = Ward.pollution_breakdown b /\
  Ward.pollutants a = Ward.pollutants b /\
  Ward.recommendations a = Ward.recommendations b /\
  Ward.coordinates a = Ward.coordinates b /\
  Ward.population a = Ward.population b /\
  Ward.area_sqkm a = Ward.area_sqkm b /\
  Ward.trend a = Ward.trend b.

(** Two runs that both throw, or both return, with related values. *)
Definition both {A} (R : A -> A -> Prop) (c1 c2 : completion A) : Prop :=
  match c1, c2 with
  | Return a1, Return a2 => R a1 a2
  | TypeError, TypeError => True
  | _, _ => False
  end.

(* ================================================================= *)
(** ** Sample data *)

Module Sample.

Definition square : list Position := [(0, 0); (0, 2); (2, 2); (2, 0)].

Definition no_reading : jsnum := NUndefined.

Definition ward (number : jsval) (aqi : float) : Ward.t := {|
  Ward.id := number;
  Ward.name := JStr "Civil Lines";
  Ward.ward_no := number;
  Ward.aqi := aqi;
  Ward.dominant_source := JStr "Traffic";
  Ward.pollution_breakdown := [("traffic", 100)]%string;
  Ward.pollutants := [("pm25", Num 90)]%string;
  Ward.recommendations := [];
  Ward.coordinates := LatLon.mk 28.68 77.22;
  Ward.population := 120000;
  Ward.area_sqkm := 4.2;
  Ward.trend := "Rising";
  Ward.last_updated := "2025-01-10T08:00:00.000Z"
|}.

Definition ward7 : Ward.t := ward (JStr "7") 210.
Definition ward0 : Ward.t := ward (JInt 0) 95.

Definition feature (id : string) (Ward_No : jsval) (geometry : option Geometry)
  : Feature.t := {|
  Feature.id := JStr id;
  Feature.properties :=
    Some {| Feature.Ward_No := Ward_No; Feature.Ward_Name := JUndefined |};
  Feature.geometry := geometry
|}.

(** [{id: "feature-3", properties: {Ward_No: "7"}}] *)
Definition feature3 : Feature.t := feature "feature-3" (JStr "7") (Some (Polygon [square])).
(** [{id: "feature-9", properties: {}}] *)
Definition feature9 : Feature.t := feature "feature-9" JUndefined (Some (Polygon [square])).
(** A feature whose [Ward_No] is the number 0. *)
Definition feature0 : Feature.t := feature "feature-0" (JInt 0) (Some (Polygon [square])).
(** A feature whose polygon has an empty ring. *)
Definition feature_empty_ring : Feature.t :=
feature "feature-5" JUndefined (Some (Polygon [[]])).

(** A station with an AQI and a PM2.5 reading only. *)
Definition station (lat lon : float) (aqi pm25 : jsnum) : Station.t := {|
  Station.lat := lat; Station.lon := lon; Station.aqi := aqi;
  Station.pm25 := pm25; Station.pm10 := no_reading; Station.no2 := no_reading;
  Station.so2 := no_reading; Station.co := no_reading; Station.o3 := no_reading
|}.

End Sample.

(* ================================================================= *)
(** ** The rest of the map component *)

(** Delhi center coordinates (line 6), as [[lat, lon]]. *)
Definition DELHI_CENTER : float * float := (28.7041, 77.1025).

(** [Math.min] of two numbers: NaN when either is NaN, and -0 below +0. *)
Definition Math_min (x y : float) : float :=
  if is_nan x || is_nan y then nan
  else if x <? y then x
  else if y <? x then y
  else if get_sign x then x else y.

(** Get marker size based on AQI (bigger = more polluted) *)
Definition getMarkerRadius (aqi : float) : float :=
  let baseSize := 8 in
  let scale := Math_min (aqi / c_100) 5 in
  baseSize + scale * 4.

(** The AQI scale shown over the map (lines 396-403): label and colour. *)
Definition legend : list (string * string) :=
  [("Good (0-50)", "#22c55e");
   ("Satisfactory (51-100)", "#eab308");
   ("Moderate (101-150)", "#f97316");
   ("Poor (151-200)", "#ef4444");
   ("Very Poor (201-300)", "#a855f7");
   ("Severe (>300)", "#881337")]%string.

(** The template literal [`feature-${idx}`], where [idx] is an array index:
    below 2^32, and printed as its decimal digits. *)
Definition index_String (idx : nat) : string := digits (Z.of_nat idx).

Definition feature_id_of_index (idx : nat) : jsval :=
  JStr ("feature-" ++ index_String idx).

(** Add unique IDs to features if not present (lines 62-65):
    [features.map((f, idx) => ({...f, id: f.id || `feature-${idx}`}))],
    counting from [idx]. *)
Fixpoint addFeatureIds_from (idx : nat) (features : list Feature.t) : list Feature.t :=
  match features with
  | [] => []
  | f :: rest =>
      {| Feature.id := or_else (Feature.id f) (feature_id_of_index idx);
         Feature.properties := Feature.properties f;
         Feature.geometry := Feature.geometry f |}
      :: addFeatureIds_from (S idx) rest
  end.

Definition addFeatureIds (features : list Feature.t) : list Feature.t :=
  addFeatureIds_from 0 features.

(** Reset selected feature when selectedWard is cleared (lines 84-88):
    the value of [selectedFeatureId] once the effect has run. *)
Definition resetSelectedFeature (selectedWard : option Ward.t)
    (selectedFeatureId : jsval) : jsval :=
  match selectedWard with
  | None => JNull
  | Some _ => selectedFeatureId
  end.

(** Component to handle map view updates when selected ward changes
    (lines 32-44): the target and zoom of the [map.flyTo] call, if any. *)
Definition MapUpdater (selectedWard : option Ward.t) : option (float * float * float) :=
  match selectedWard with
  | Some selectedWard =>
      Some (LatLon.lat (Ward.coordinates selectedWard),
            LatLon.lon (Ward.coordinates selectedWard), 13)
  | None => None
  end.

(** The fallback circle marker of a ward (lines 332-346): its radius and
    the weight of its outline. *)
Definition wardMarker (selectedWard : option Ward.t) (ward : Ward.t) : float * float :=
  let isSelected :=
    strict_eq (match selectedWard with Some s => Ward.id s | None => JUndefined end)
              (Ward.id ward) in
  let radius := getMarkerRadius (Ward.aqi ward) in
  (if isSelected then radius * 1.5 else radius, if isSelected then 3 else 1).

(* ================================================================= *)
(** ** The details panel and the sidebar (DetailsPanel.jsx, Sidebar.jsx) *)

Module DetailsPanel.

(** Get AQI category and color *)
Definition getAqiColor (aqi : float) : string :=
  if aqi <=? 50 then "#22c55e"
  else if aqi <=? 100 then "#eab308"
  else if aqi <=? 150 then "#f97316"
  else if aqi <=? 200 then "#ef4444"
  else if aqi <=? 300 then "#a855f7"
  else "#881337".

Definition getAqiLabel (aqi : float) : string :=
  if aqi <=? 50 then "Good"
  else if aqi <=? 100 then "Satisfactory"
  else if aqi <=? 150 then "Moderate"
  else if aqi <=? 200 then "Poor"
  else if aqi <=? 300 then "Very Poor"
  else "Severe".

(** The bar colour of each pollution source. *)
Definition sourceColors : list (string * string) :=
  [("traffic", "bg-blue-500");
   ("industrial", "bg-purple-500");
   ("construction_dust", "bg-yellow-500");
   ("biomass_burning", "bg-red-500");
   ("other", "bg-slate-500")]%string.

(** [sourceColors[key]] *)
Fixpoint sourceColor (colors : list (string * string)) (key : string) : option string :=
  match colors with
  | [] => None
  | (k, c) :: rest => if String.eqb k key then Some c else sourceColor rest key
  end.

(** The pollutant cards: key and limit. *)
Definition cards : list (string * float) :=
  [("pm25", 60); ("pm10", 100); ("no2", 80); ("so2", 80); ("co", 10); ("o3", 100)]%string.

(** What a pollutant card shows for [wardDetails.pollutants[key]]: the
    number it prints (with [toFixed(1)]), or the "--" placeholder. *)
Definition cardValue (pollutants : list (string * jsnum)) (key : string) : option float :=
  match get_property pollutants key with
  | Num value => Some value
  | NNull | NUndefined => None
  end.

(** [value && value > pollutant.limit] *)
Definition isHigh (pollutants : list (string * jsnum)) (key : string) (limit : float) : bool :=
  match get_property pollutants key with
  | Num value =>
      if is_nan value || (value =? 0) then false else limit <? value
  | NNull | NUndefined => false
  end.

End DetailsPanel.

Module Sidebar.

(** Get AQI color based on value *)
Definition getAqiColor (aqi : float) : string :=
  if aqi <=? 50 then "#22c55e"
  else if aqi <=? 100 then "#eab308"
  else if aqi <=? 150 then "#f97316"
  else if aqi <=? 200 then "#ef4444"
  else if aqi <=? 300 then "#a855f7"
  else "#881337".

(** The positions of the traffic slider ([type="range" min="0" max="100"],
    read with [parseInt]): the integers from 0 to 100, as numbers. *)
Definition sliderValue (position : Z) : float := of_Z position.

End Sidebar.

(* ================================================================= *)
(** ** The application shell (App.jsx) *)

Module App.

Inductive Request : Type :=
  | GET (url : string)
  | POST_simulate (traffic_reduction_percentage : float).

(** The backend, as one handler run sees it: each request resolves with
    data ([Some]) or is rejected ([None]). *)
Record Backend : Type := mkBackend {
  get_wards : option (list Ward.t);
  post_simulate : float -> option (list Ward.t);
  get_ward : string -> option Ward.t
}.

Record State : Type := mkState {
  wards : list Ward.t;
  selectedWard : option Ward.t;
  wardDetails : option Ward.t;
  isDetailsPanelOpen : bool;
  trafficReduction : float;
  isLoading : bool;
  error : option string;
  lastUpdated : option string
}.

(** [useState] initial values. *)
Definition initial : State := {|
  wards := [];
  selectedWard := None;
  wardDetails := None;
  isDetailsPanelOpen := false;
  trafficReduction := 0;
  isLoading := true;
  error := None;
  lastUpdated := None
|}.

(** Fetch wards data: the state once the handler has run to its end, and
    the request it made.  [now] is [new Date().toLocaleTimeString()]. *)
Definition fetchWards (backend : Backend) (now : string) (reduction : float)
    (st : State) : State * list Request :=
  let '(response, request) :=
    if 0 <? reduction
    then (post_simulate backend reduction, POST_simulate reduction)
    else (get_wards backend, GET "http://localhost:8000/wards") in
  match response with
  | Some data =>
      ({| wards := data;
          selectedWard := selectedWard st;
          wardDetails := wardDetails st;
          isDetailsPanelOpen := isDetailsPanelOpen st;
          trafficReduction := trafficReduction st;
          isLoading := false;
          error := None;
          lastUpdated := Some now |}, [request])
  | None =>
      ({| wards := wards st;
          selectedWard := selectedWard st;
          wardDetails := wardDetails st;
          isDetailsPanelOpen := isDetailsPanelOpen st;
          trafficReduction := trafficReduction st;
          isLoading := false;
          error := Some "Failed to connect to backend. Make sure the server is running on port 8000."%string;
          lastUpdated := lastUpdated st |}, [request])
  end.

(** Handle traffic simulation *)
Definition handleTrafficSimulation (backend : Backend) (now : string) (value : float)
    (st : State) : State * list Request :=
  fetchWards backend now value
    {| wards := wards st;
       selectedWard := selectedWard st;
       wardDetails := wardDetails st;
       isDetailsPanelOpen := isDetailsPanelOpen st;
       trafficReduction := value;
       isLoading := isLoading st;
       error := error st;
       lastUpdated := lastUpdated st |}.

(** [typeof ward.id === 'string' && ward.id.startsWith('feature-')] *)
Definition isInterpolated (ward : Ward.t) : bool :=
  match Ward.id ward with
  | JStr id => String.prefix "feature-" id
  | _ => false
  end.

Definition with_selection (st : State) (selected details : option Ward.t)
    (open : bool) : State :=
  {| wards := wards st;
     selectedWard := selected;
     wardDetails := details;
     isDetailsPanelOpen := open;
     trafficReduction := trafficReduction st;
     isLoading := isLoading st;
     error := error st;
     lastUpdated := lastUpdated st |}.

(** Handle ward selection *)
Definition handleWardClick (backend : Backend) (ward : Ward.t) (st : State)
    : State * list Request :=
  if isInterpolated ward then
    (with_selection st (Some ward) (Some ward) true, [])
  else
    let url := ("http://localhost:8000/ward/" ++ String_ (Ward.id ward))%string in
    match get_ward backend url with
    | Some data => (with_selection st (Some ward) (Some data) true, [GET url])
    | None => (with_selection st (Some ward) (wardDetails st) true, [GET url])
    end.

(** Close details panel *)
Definition closeDetailsPanel (st : State) : State :=
  with_selection st None None false.

(** The comparator of the leaderboard: [(a, b) => b.aqi - a.aqi]. *)
Definition byAqiDescending (a b : Ward.t) : float := Ward.aqi b - Ward.aqi a.

(** [Array.prototype.sort] is a stable sort: where the comparator orders
    the elements consistently, its result is that of any stable sort, such
    as this insertion of each element before the sorted rest.  [x] goes
    after [y] when [compare(x, y) > 0]. *)
Fixpoint insert (compare : Ward.t -> Ward.t -> float) (x : Ward.t) (sorted : list Ward.t)
  : list Ward.t :=
  match sorted with
  | [] => [x]
  | y :: rest =>
      if 0 <? compare x y then y :: insert compare x rest else x :: sorted
  end.

Definition sort (compare : Ward.t -> Ward.t -> float) (l : list Ward.t) : list Ward.t :=
  fold_right (insert compare) [] l.

(** Get sorted wards for leaderboard (top 5 most polluted) *)
Definition topPollutedWards (st : State) : list Ward.t :=
  firstn 5 (sort byAqiDescending (wards st)).

End App.

(** [a] may stand before [b] in the leaderboard: [b.aqi - a.aqi] is not
    above zero. *)
Definition precedes (a b : Ward.t) : bool := negb (0 <? App.byAqiDescending a b).

(** The comparator orders the wards of [l] consistently: any two are
    comparable, and the order is transitive. *)
Definition consistent (l : list Ward.t) : bool :=
  forallb (fun a => forallb (fun b =>
    (precedes a b || precedes b a) &&
    forallb (fun c => implb (precedes a b && precedes b c) (precedes a c)) l) l) l.

(** The exact integer value of a number, when it has one. *)
Definition to_Z (x : float) : option Z :=
  match Prim2SF x with
  | S754_zero _ => Some 0%Z
  | S754_finite s m e =>
      let n := if s then Zneg m else Zpos m in
      if (0 <=? e)%Z then Some (n * 2 ^ e)%Z
      else if (n mod 2 ^ (- e) =? 0)%Z then Some (n / 2 ^ (- e))%Z
      else None
  | _ => None
  end.

(** The integers [lo], [lo + 1], ..., [lo + n - 1]. *)
Fixpoint Zrange (lo : Z) (n : nat) : list Z :=
  match n with
  | O => []
  | S n => lo :: Zrange (lo + 1) n
  end.

(** The place of a colour in the legend. *)
Fixpoint legend_rank_in (l : list (string * string)) (color : string) : option nat :=
  match l with
  | [] => None
  | (_, c) :: rest =>
      if String.eqb c color then Some 0%nat
      else option_map S (legend_rank_in rest color)
  end.

Definition legend_rank (color : string) : option nat := legend_rank_in legend color.

(** The adjusted AQI at slider position [p] for the raw AQI [v]. *)
Definition adjusted (p v : Z) : float :=
  applyTrafficReduction (Sidebar.sliderValue p) (of_Z v).

(** The adjustment in exact arithmetic: [v * (1 - 0.4 * p / 100)] rounded
    to the nearest integer, a tie going up. *)
Definition exactly_adjusted (p v : Z) : Z := ((2 * v * (250 - p) + 250) / 500)%Z.

(** One check of the scenario adjustment at a slider position and an
    integral raw AQI: the result is the integer of the exact arithmetic,
    or one below it at a tie. *)
Definition adjusted_ok (p v : Z) : bool :=
  let r := adjusted p v in
  let e := exactly_adjusted p v in
  PrimFloat.Leibniz.eqb r (of_Z e) ||
  ((2 * v * (250 - p)) mod 500 =? 250)%Z && PrimFloat.Leibniz.eqb r (of_Z (e - 1)).

(** One check of the marker radius at an integral AQI: between 8 and 28,
    28 from 500 on, and not above the radius of the next AQI. *)
Definition radius_ok (aqi : Z) : bool :=
  let r := getMarkerRadius (of_Z aqi) in
  (8 <=? r) && (r <=? 28) &&
  (if (500 <=? aqi)%Z then PrimFloat.Leibniz.eqb r 28 else true) &&
  (r <=? getMarkerRadius (of_Z (aqi + 1))).

(** The sum of the character codes of a string. *)
Definition sum_codes (s : string) : Z :=
  fold_left (fun n c => (n + Z.of_N (N_of_ascii c))%Z) (list_ascii_of_string s) 0%Z.

(** One step of the hash is exact: adding a character code to an integer
    below 2040 gives the integer sum. *)
Definition hash_step_ok (n : Z) : bool :=
  let a := of_Z n in
  forallb (fun c => PrimFloat.Leibniz.eqb (a + of_Z c) (of_Z (n + c))) (Zrange 0 256).

(** One check of the placeholder population and area for a hash [h]: the
    population is the integer [80000 + (h * 1234) mod 400000], and the area
    is a number of tenths between 2.5 and 14.5. *)
Definition placeholder_ok (h : Z) : bool :=
  let tenths := Math_round ((2.5 + js_mod (of_Z h * c_0_17) 12) * 10) in
  PrimFloat.Leibniz.eqb (80000 + js_mod (of_Z h * 1234) 400000)
                        (of_Z (80000 + (h * 1234) mod 400000)) &&
  match to_Z tenths with
  | Some k => PrimFloat.Leibniz.eqb tenths (of_Z k) && (25 <=? k)%Z && (k <=? 145)%Z
  | None => false
  end.

(** The point an estimated record is interpolated at: the centroid, or
    the centre of Delhi. *)
Definition estimation_point (feature : Feature.t) : LatLon.t :=
  match Spec.GeometryCentroid feature with
  | Some centroid => centroid
  | None => LatLon.mk (fst DELHI_CENTER) (snd DELHI_CENTER)
  end.

(** A state of the application with nothing selected. *)
Definition closed (st : App.State) : Prop :=
  App.selectedWard st = None /\ App.wardDetails st = None /\
  App.isDetailsPanelOpen st = false.

(* ================================================================= *)
(** ** Properties *)

(** *** Numbers *)

Lemma is_nan_false_Prim2SF (p : float) :
  is_nan p = false -> Prim2SF p <> S754_nan.
Proof.
  unfold is_nan. rewrite eqb_spec. intros H E. rewrite E in H. discriminate H.
Qed.

(** For a number that is not NaN, [0 < p] is the negation of [p <= 0]. *)
Lemma ltb_zero_negb_leb (p : float) :
  is_nan p = false -> (0 <? p) = negb (p <=? 0).
Proof.
  intros H. apply is_nan_false_Prim2SF in H.
  rewrite ltb_spec, leb_spec.
  change (Prim2SF 0) with (S754_zero false).
  destruct (Prim2SF p) as [s | s | | s m e]; try congruence;
    destruct s; reflexivity.
Qed.

(** *** Folds *)

Lemma fold_left_add_map {A} (f : A -> float) (l : list A) (a : float) :
  fold_left (fun sum c => sum + f c) l a = fold_left PrimFloat.add (map f l) a.
Proof.
  revert a. induction l as [| c l IH]; intros a; simpl; [reflexivity | apply IH].
Qed.

(** *** Ward matching *)

Section Matching.

Variable wards : list Ward.t.
Variable feature : Feature.t.

Lemma findWardForFeature_eq :
  findWardForFeature wards (Some feature) =
  if truthy (feature_Ward_No feature)
  then find (fun w => String.eqb (String_ (Ward.ward_no w))
                                 (String_ (feature_Ward_No feature))) wards
  else None.
Proof.
  unfold findWardForFeature, feature_Ward_No.
  destruct wards as [| w ws] eqn:Ew.
  - simpl. destruct (Feature.properties feature) as [p |]; simpl.
    + destruct (truthy (Feature.Ward_No p)); reflexivity.
    + reflexivity.
  - cbn [List.length Nat.eqb].
    destruct (Feature.properties feature) as [p |]; [| reflexivity].
    destruct (truthy (Feature.Ward_No p)); [| reflexivity].
    destruct (find _ (w :: ws)); reflexivity.
Qed.

Lemma find_first {A} (f : A -> bool) (l : list A) :
  match find f l with
  | Some x =>
      exists before after,
        l = before ++ x :: after /\ f x = true /\
        Forall (fun y => f y = false) before
  | None => Forall (fun y => f y = false) l
  end.
Proof.
  induction l as [| y l IH]; simpl.
  - constructor.
  - destruct (f y) eqn:Ey.
    + exists [], l. repeat split; [assumption | constructor].
    + destruct (find f l) as [x |].
      * destruct IH as (before & after & -> & Hx & Hb).
        exists (y :: before), after. repeat split; [assumption |].
        constructor; assumption.
      * constructor; assumption.
Qed.

End Matching.

(** On a truthy [Ward_No], and on a missing one, the code is the
    specification's matcher. *)
Lemma findWardForFeature_WardMatcher (wards : list Ward.t) (feature : Feature.t) :
  truthy (feature_Ward_No feature) = true \/ feature_Ward_No feature = JUndefined ->
  findWardForFeature wards (Some feature) = Spec.WardMatcher feature wards.
Proof.
  intros H. rewrite findWardForFeature_eq. unfold Spec.WardMatcher.
  destruct H as [H | H]; rewrite H; [| reflexivity].
  destruct (feature_Ward_No feature); try reflexivity; discriminate H.
Qed.

(** C1 (as amended).  For every feature and ward list: when the matcher
    returns a ward, the feature's [Ward_No] is truthy and the ward is the
    first one in the list whose stringified number equals the stringified
    [Ward_No]; when it returns nothing, the [Ward_No] is missing or falsy
    (0, the empty string, null, false) or no ward's number is string-equal.
    A null feature matches nothing. *)
Theorem findWardForFeature_first_match (wards : list Ward.t) (feature : Feature.t) :
  let differs (w : Ward.t) :=
    String_ (Ward.ward_no w) <> String_ (feature_Ward_No feature) in
  findWardForFeature wards None = None /\
  match findWardForFeature wards (Some feature) with
  | Some w =>
      truthy (feature_Ward_No feature) = true /\
      exists before after,
        wards = before ++ w :: after /\
        String_ (Ward.ward_no w) = String_ (feature_Ward_No feature) /\
        Forall differs before
  | None =>
      truthy (feature_Ward_No feature) = false \/ Forall differs wards
  end.
Proof.
  intros differs. split; [reflexivity |].
  rewrite findWardForFeature_eq.
  destruct (truthy (feature_Ward_No feature)); [| left; reflexivity].
  set (f := fun w => String.eqb (String_ (Ward.ward_no w))
                                (String_ (feature_Ward_No feature))).
  assert (Hneg : forall l, Forall (fun y => f y = false) l -> Forall differs l).
  { intros l Hl. eapply Forall_impl; [| exact Hl].
    intros w Hw. unfold differs. apply String.eqb_neq. exact Hw. }
  pose proof (find_first f wards) as H.
  destruct (find f wards) as [w |].
  - destruct H as (before & after & E & Hw & Hb).
    split; [reflexivity |]. exists before, after.
    repeat split; [exact E | apply String.eqb_eq; exact Hw | apply Hneg; exact Hb].
  - right. apply Hneg. exact H.
Qed.

(** C1, as stated, fails: the ward list holds a ward whose number, 0,
    prints as the feature's [Ward_No], 0, does; the specification's matcher
    returns it, and [findWardForFeature] returns nothing. *)
Lemma findWardForFeature_misses_zero :
  Spec.WardMatcher Sample.feature0 [Sample.ward7; Sample.ward0] = Some Sample.ward0 /\
  findWardForFeature [Sample.ward7; Sample.ward0] (Some Sample.feature0) = None.
Proof. split; reflexivity. Qed.

(** *** Centroid *)

(** The code's centroid is the specification's, wherever the code reaches
    a ring or finds none to look for. *)
Lemma getFeatureCentroid_GeometryCentroid (feature : Feature.t) :
  Feature.geometry feature <> Some (MultiPolygon []) ->
  getFeatureCentroid (Some feature) = Return (Spec.GeometryCentroid feature).
Proof.
  intros Hg.
  unfold getFeatureCentroid, Spec.GeometryCentroid.
  destruct (Feature.geometry feature) as [g |]; [| reflexivity].
  assert (Hring : forall ring : list Position,
             match ring with
             | [] => Return None
             | _ :: _ =>
                 Return (Some (LatLon.mk
                   (fold_left (fun sum c => sum + snd c) ring 0
                      / of_Z (Z.of_nat (List.length ring)))
                   (fold_left (fun sum c => sum + fst c) ring 0
                      / of_Z (Z.of_nat (List.length ring)))))
             end =
             Return match ring with
                    | [] => None
                    | _ :: _ =>
                        Some (LatLon.mk (Spec.mean (map snd ring)) (Spec.mean (map fst ring)))
                    end).
  { intros [| c ring]; [reflexivity |].
    unfold Spec.mean.
    rewrite (fold_left_add_map snd), (fold_left_add_map fst), !length_map.
    reflexivity. }
  destruct g as [rings | parts]; simpl.
  - destruct rings as [| ring rings]; simpl; [reflexivity | apply Hring].
  - destruct parts as [| part parts]; [congruence |].
    simpl. destruct part as [| ring part]; simpl; [reflexivity | apply Hring].
Qed.

(** C7 fails on one kind of feature, and holds on every other.  A feature
    whose geometry is [{type: 'MultiPolygon', coordinates: []}] has no outer
    ring, so the specification gives it no centroid; [getFeatureCentroid]
    reads [coordinates[0][0]] of it (lines 118-119) and throws, where the
    sibling [{type: 'Polygon', coordinates: []}] gets [null].  On every
    other feature the code returns the specification's centroid: the mean
    latitude and longitude of the outer ring's vertices, nothing when the
    geometry is absent or the ring is empty, and [{lat:1, lon:1}] for the
    square ring [[0,0],[0,2],[2,2],[2,0]].  The throw reaches the user: with
    a station loaded the feature cannot be styled, and without one a click
    on it fails instead of opening the details panel. *)
Theorem getFeatureCentroid_throws_without_part :
  (forall (id : jsval) (properties : option Feature.Properties),
      let feature := Feature.mk id properties (Some (MultiPolygon [])) in
      Spec.GeometryCentroid feature = None /\
      getFeatureCentroid (Some feature) = TypeError) /\
  (forall feature : Feature.t,
      Feature.geometry feature = Some (MultiPolygon []) \/
      getFeatureCentroid (Some feature) = Return (Spec.GeometryCentroid feature)) /\
  getFeatureCentroid (Some (Sample.feature "feature-4" JUndefined (Some (Polygon []))))
    = Return None /\
  getFeatureCentroid (Some Sample.feature3) = Return (Some (LatLon.mk 1 1)) /\
  (let feature := Sample.feature "feature-4" JUndefined (Some (MultiPolygon [])) in
   getFeatureStyle [Sample.ward7] 0 [Sample.station 1 1 (Num 100) (Num 40)] JNull feature
     = TypeError /\
   resolve [Sample.ward7] 0 [] JNull feature "2025-01-10T08:00:00.000Z" = TypeError).
Proof.
  split; [intros id properties; split; reflexivity |].
  split; [| repeat split; reflexivity].
  intros feature.
  destruct (Feature.geometry feature) as [[rings | [| part parts]] |] eqn:E;
    [right | left; reflexivity | right | right];
    apply getFeatureCentroid_GeometryCentroid; rewrite E; discriminate.
Qed.

(** *** Scenario adjustment *)

(** C4.  For every raw value [v] and every traffic-reduction percentage
    [p] (a number): if [p <= 0] the adjustment returns [v] unchanged,
    otherwise [round (v * (1 - 0.40 * (p / 100)))]; and the adjustment of
    100 is 100 at 0 percent, 60 at 100 percent and 80 at 50 percent. *)
Theorem applyTrafficReduction_ScenarioAdjuster :
  (forall v p : float,
      is_nan p = false ->
      applyTrafficReduction p v =
      if p <=? 0 then v else Math_round (v * (1 - c_0_40 * (p / c_100)))) /\
  applyTrafficReduction 0 100 = 100 /\
  applyTrafficReduction 100 100 = 60 /\
  applyTrafficReduction 50 100 = 80.
Proof.
  split; [| repeat split; reflexivity].
  intros v p Hp. unfold applyTrafficReduction.
  rewrite (ltb_zero_negb_leb p Hp).
  destruct (p <=? 0); reflexivity.
Qed.

Lemma applyTrafficReduction_ScenarioAdjuster_witness :
  is_nan 25 = false /\ applyTrafficReduction 25 200 = 180.
Proof.
  split; [reflexivity |].
  rewrite (proj1 applyTrafficReduction_ScenarioAdjuster 200 25 eq_refl).
  reflexivity.
Defined.

(** *** Interpolation *)

Section Interpolation.

Variable stations : list Station.t.
Variable centroid : LatLon.t.

Lemma fold_left_filter {A B} (P : B -> bool) (g : A -> B -> A) (l : list B) (a : A) :
  fold_left g (filter P l) a = fold_left (fun a x => if P x then g a x else a) l a.
Proof.
  revert a. induction l as [| x l IH]; intros a; simpl; [reflexivity |].
  destruct (P x); simpl; apply IH.
Qed.

Lemma fold_left_ext_in {A B} (g h : A -> B -> A) (l : list B) (a : A) :
  (forall a x, In x l -> g a x = h a x) -> fold_left g l a = fold_left h l a.
Proof.
  revert a. induction l as [| x l IH]; intros a H; simpl; [reflexivity |].
  rewrite H by (left; reflexivity). apply IH.
  intros a' y Hy. apply H. right. exact Hy.
Qed.

(** The pollutant loop accumulates over the stations that pass its guard. *)
Lemma pollutantSums_contributors (key : string) :
  pollutantSums stations centroid key =
  Spec.sums idw_weight key centroid (filter (contributes key) stations).
Proof.
  unfold pollutantSums, Spec.sums. rewrite fold_left_filter.
  apply fold_left_ext_in. intros [weightSum valueSum] station _.
  unfold contributes.
  destruct (Station.get station key) as [| | value]; reflexivity.
Qed.

(** The AQI loop accumulates over every station. *)
Lemma aqiSums_all :
  aqiSums stations centroid = Spec.sums idw_weight "aqi" centroid stations.
Proof.
  unfold aqiSums, Spec.sums.
  apply fold_left_ext_in. intros [weightSum valueSum] station _. reflexivity.
Qed.

Lemma filter_all {A} (P : A -> bool) (l : list A) :
  Forall (fun x => P x = true) l -> filter P l = l.
Proof.
  induction 1 as [| x l Hx _ IH]; simpl; [reflexivity |].
  rewrite Hx, IH. reflexivity.
Qed.

Lemma filter_none {A} (P : A -> bool) (l : list A) :
  Forall (fun x => P x = false) l -> filter P l = [].
Proof.
  induction 1 as [| x l Hx _ IH]; simpl; [reflexivity |].
  rewrite Hx. exact IH.
Qed.

(** What [getInterpolatedAqi] computes once there are stations and a
    centroid. *)
Lemma getInterpolatedAqi_eq (trafficReduction : float) (feature : Feature.t) :
  stations <> [] ->
  getFeatureCentroid (Some feature) = Return (Some centroid) ->
  getInterpolatedAqi trafficReduction stations (Some feature) =
  Return (applyTrafficReduction trafficReduction
            (Spec.IDW_result_aqi (aqiSums stations centroid))).
Proof.
  intros Hs Hc. unfold getInterpolatedAqi.
  destruct stations as [| s l]; [congruence |].
  cbn [List.length Nat.eqb]. rewrite Hc. cbn [bind].
  unfold Spec.IDW_result_aqi.
  destruct (aqiSums (s :: l) centroid) as [weightSum valueSum]. reflexivity.
Qed.

(** Reading a key of an object built by assigning [r key] to each key. *)
Lemma get_property_map (r : string -> jsnum) (keys : list string) (key : string) :
  In key keys ->
  get_property (map (fun k => (k, r k)) keys) key = r key.
Proof.
  induction keys as [| k keys IH]; intros Hin; [destruct Hin |].
  simpl. destruct (String.eqb_spec k key) as [-> | Hne]; [reflexivity |].
  apply IH. destruct Hin as [E | Hin]; [congruence | exact Hin].
Qed.

(** What the click handler stores under a pollutant key. *)
Lemma interpolatedPollutants_key (key : string) :
  In key pollutantKeys ->
  get_property (interpolatedPollutants stations centroid) key =
  if 0 <? fst (pollutantSums stations centroid key)
  then Num (Math_round (snd (pollutantSums stations centroid key)
                        / fst (pollutantSums stations centroid key) * c_100) / c_100)
  else NNull.
Proof.
  intros Hin. unfold interpolatedPollutants.
  rewrite (map_ext _
             (fun k => (k, let '(weightSum, valueSum) := pollutantSums stations centroid k in
                           if 0 <? weightSum
                           then Num (Math_round (valueSum / weightSum * c_100) / c_100)
                           else NNull))).
  - rewrite (get_property_map _ _ _ Hin).
    destruct (pollutantSums stations centroid key); reflexivity.
  - intros k. destruct (pollutantSums stations centroid k); reflexivity.
Qed.

End Interpolation.

(** C3 (as amended).  In the interpolation of a pollutant channel at any
    query point, exactly the stations whose reading for the channel is a
    number above zero contribute, each with weight [1 / max(dist * dist,
    1e-4)], [dist] being the Euclidean distance in (lat, lon) degrees as
    the code rounds it; a station whose reading is 0, or that has no
    reading for the channel, contributes nothing.  In the AQI channel,
    over a station set in which every station has an AQI reading, every
    station contributes with that weight, a reading of 0 included. *)
Theorem idw_contributors (stations : list Station.t) (centroid : LatLon.t) :
  (forall key,
      pollutantSums stations centroid key =
      Spec.sums idw_weight key centroid (filter (contributes key) stations)) /\
  (forall key before station after,
      stations = before ++ station :: after ->
      contributes key station = false ->
      pollutantSums stations centroid key =
      pollutantSums (before ++ after) centroid key) /\
  (Forall (fun station => Spec.reports "aqi" station = true) stations ->
   aqiSums stations centroid =
   Spec.sums idw_weight "aqi" centroid (filter (Spec.reports "aqi") stations)).
Proof.
  split; [| split].
  - intros key. apply pollutantSums_contributors.
  - intros key before station after -> Hno.
    rewrite !pollutantSums_contributors, !filter_app. simpl.
    rewrite Hno. reflexivity.
  - intros Hall. rewrite (filter_all _ _ Hall). apply aqiSums_all.
Qed.

Lemma idw_contributors_witness :
  let stations := [Sample.station 0 0 (Num 0) (Num 0); Sample.station 1 1 (Num 50) (Num 12.5)] in
  Forall (fun station => Spec.reports "aqi" station = true) stations /\
  aqiSums stations (LatLon.mk 0 0) =
  Spec.sums idw_weight "aqi" (LatLon.mk 0 0) (filter (Spec.reports "aqi") stations).
Proof.
  intros stations.
  assert (H : Forall (fun station => Spec.reports "aqi" station = true) stations)
    by (repeat constructor).
  split; [exact H |].
  exact (proj2 (proj2 (idw_contributors stations (LatLon.mk 0 0))) H).
Defined.

(** C3, as stated, fails.  A station whose PM2.5 reading is 0 reports the
    channel, so the specification's sums count it (weight sum 10000); the
    code's loop skips it (weight sum 0).  And the weight the code computes
    squares a rounded square root: at squared distance 2 it is not 1/2. *)
Lemma idw_zero_reading_skipped :
  let point := LatLon.mk 0 0 in
  let idle := Sample.station 0 0 (Num 50) (Num 0) in
  let far := Sample.station 1 1 (Num 50) (Num 20) in
  Spec.reports "pm25" idle = true /\
  Spec.IDW_sums "pm25" point [idle] = (10000, 0) /\
  pollutantSums [idle] point "pm25" = (0, 0) /\
  Spec.weight far point = 0.5 /\
  idw_weight far point = 0.49999999999999989.
Proof. repeat split; reflexivity. Qed.

(** C5 (as amended).  Whenever the weight sum is above zero: the AQI
    channel's interpolation, before the scenario adjustment, is
    [round (valueSum / weightSum)], the weighted mean rounded to the
    nearest integer; and each of the six pollutant channels is
    [round (valueSum / weightSum * 100) / 100], the weighted mean rounded
    to two decimals. *)
Theorem interpolation_rounding (stations : list Station.t) (centroid : LatLon.t) :
  (forall trafficReduction feature,
      stations <> [] ->
      getFeatureCentroid (Some feature) = Return (Some centroid) ->
      (0 <? fst (aqiSums stations centroid)) = true ->
      getInterpolatedAqi trafficReduction stations (Some feature) =
      Return (applyTrafficReduction trafficReduction
                (Math_round (snd (aqiSums stations centroid)
                             / fst (aqiSums stations centroid))))) /\
  (forall key,
      In key pollutantKeys ->
      (0 <? fst (pollutantSums stations centroid key)) = true ->
      get_property (interpolatedPollutants stations centroid) key =
      Num (Math_round (snd (pollutantSums stations centroid key)
                       / fst (pollutantSums stations centroid key) * c_100) / c_100)).
Proof.
  split.
  - intros trafficReduction feature Hs Hc Hw.
    rewrite (getInterpolatedAqi_eq stations centroid trafficReduction feature Hs Hc).
    unfold Spec.IDW_result_aqi. rewrite Hw. reflexivity.
  - intros key Hin Hw.
    rewrite (interpolatedPollutants_key stations centroid key Hin), Hw. reflexivity.
Qed.

Lemma interpolation_rounding_witness :
  let stations := [Sample.station 0 0 (Num 50) (Num 12.5)] in
  let centroid := LatLon.mk 1 1 in
  (stations <> [] /\
   getFeatureCentroid (Some Sample.feature9) = Return (Some centroid) /\
   (0 <? fst (aqiSums stations centroid)) = true /\
   getInterpolatedAqi 0 stations (Some Sample.feature9) = Return 50) /\
  (In "pm25"%string pollutantKeys /\
   (0 <? fst (pollutantSums stations centroid "pm25")) = true /\
   get_property (interpolatedPollutants stations centroid) "pm25" = Num 12.5).
Proof.
  intros stations centroid.
  assert (Hs : stations <> []) by discriminate.
  assert (Hc : getFeatureCentroid (Some Sample.feature9) = Return (Some centroid))
    by reflexivity.
  assert (Hw : (0 <? fst (aqiSums stations centroid)) = true) by reflexivity.
  assert (Hin : In "pm25"%string pollutantKeys) by (left; reflexivity).
  assert (Hp : (0 <? fst (pollutantSums stations centroid "pm25")) = true) by reflexivity.
  split.
  - split; [exact Hs | split; [exact Hc | split; [exact Hw |]]].
    rewrite (proj1 (interpolation_rounding stations centroid) 0 Sample.feature9 Hs Hc Hw).
    reflexivity.
  - split; [exact Hin | split; [exact Hp |]].
    rewrite (proj2 (interpolation_rounding stations centroid) "pm25"%string Hin Hp).
    reflexivity.
Defined.

(** C5, as stated, fails for a pollutant channel: with one station
    reading 12.5 the weight sum is above zero and the rounded weighted mean
    is 13, but the code stores 12.5. *)
Lemma pollutant_rounding_two_decimals :
  let point := LatLon.mk 0 0 in
  let stations := [Sample.station 0 0 (Num 50) (Num 12.5)] in
  pollutantSums stations point "pm25" = (10000, 125000) /\
  (0 <? 10000) = true /\
  Spec.IDW_result_pollutant (pollutantSums stations point "pm25") = Num 13 /\
  get_property (interpolatedPollutants stations point) "pm25" = Num 12.5.
Proof. repeat split; reflexivity. Qed.

(** What does hold of C6: with no station at all the AQI is 180, whatever
    the scenario; and a pollutant channel no station contributes to is
    [null]. *)
Lemma getInterpolatedAqi_no_stations (trafficReduction : float) (feature : option Feature.t) :
  getInterpolatedAqi trafficReduction [] feature = Return c_180.
Proof. reflexivity. Qed.

Lemma interpolatedPollutants_none (stations : list Station.t) (centroid : LatLon.t)
    (key : string) :
  In key pollutantKeys ->
  Forall (fun station => contributes key station = false) stations ->
  get_property (interpolatedPollutants stations centroid) key = NNull.
Proof.
  intros Hin Hnone.
  rewrite (interpolatedPollutants_key stations centroid key Hin).
  rewrite pollutantSums_contributors, (filter_none _ _ Hnone). reflexivity.
Qed.

(** C6 fails on the code.  No station of the set reports the AQI channel
    (the only station's AQI is [null], or missing), yet the interpolated
    AQI is not the fallback 180: the [null] reading is coerced to 0 and
    the result is 0; a missing reading makes it NaN. *)
Theorem getInterpolatedAqi_unreported_aqi :
  let silent := Sample.station 28.70 77.10 NNull (Num 80) in
  let blank := Sample.station 28.70 77.10 NUndefined (Num 80) in
  Spec.reports "aqi" silent = false /\
  Spec.reports "aqi" blank = false /\
  Spec.IDW_result_aqi (Spec.IDW_sums "aqi" (LatLon.mk 1 1) [silent]) = 180 /\
  getInterpolatedAqi 0 [silent] (Some Sample.feature9) = Return 0 /\
  getInterpolatedAqi 0 [blank] (Some Sample.feature9) = Return nan.
Proof. repeat split; reflexivity. Qed.

(** C2 fails on the code.  With no station and a 50 percent reduction
    the specification's resolver adjusts the fallback 180 to 144, and the
    code returns 180; for a feature whose ring is empty the specification
    interpolates at the fallback point (here onto a station reading 300),
    and the code returns 180. *)
Theorem getInterpolatedAqi_early_return :
  let central := Sample.station 28.7041 77.1025 (Num 300) (Num 80) in
  Spec.FeatureResolver_aqi Sample.feature9 [] 50 = 144 /\
  getInterpolatedAqi 50 [] (Some Sample.feature9) = Return 180 /\
  Spec.FeatureResolver_aqi Sample.feature_empty_ring [central] 0 = 300 /\
  getInterpolatedAqi 0 [central] (Some Sample.feature_empty_ring) = Return 180.
Proof. repeat split; reflexivity. Qed.

(** *** Resolution *)

Section Resolution.

Variable wards : list Ward.t.
Variable stations : list Station.t.

Lemma unmatched_without_Ward_No (feature : Feature.t) :
  truthy (feature_Ward_No feature) = false ->
  findWardForFeature wards (Some feature) = None.
Proof. intros H. rewrite findWardForFeature_eq, H. reflexivity. Qed.

Lemma getInterpolatedAqi_returns (trafficReduction : float) (feature : Feature.t) :
  Feature.geometry feature <> Some (MultiPolygon []) ->
  exists aqi, getInterpolatedAqi trafficReduction stations (Some feature) = Return aqi.
Proof.
  intros Hg. unfold getInterpolatedAqi.
  destruct (List.length stations =? 0)%nat; [eexists; reflexivity |].
  rewrite (getFeatureCentroid_GeometryCentroid feature Hg). cbn [bind].
  destruct (Spec.GeometryCentroid feature) as [c |]; [| eexists; reflexivity].
  destruct (aqiSums stations c). eexists; reflexivity.
Qed.

End Resolution.

(** C8.  For every feature that matches a ward, whatever the
    traffic-reduction parameter, the stations and the selection: the click
    hands the matched ward record itself to [onWardClick], no field
    changed and no scenario adjustment applied; the tooltip and the style
    show the record's own AQI; and the tooltip is not flagged estimated. *)
Theorem matched_ward_untouched (wards : list Ward.t) (stations : list Station.t)
    (selectedFeatureId : jsval) (feature : Feature.t) (ward : Ward.t)
    (trafficReduction : float) :
  findWardForFeature wards (Some feature) = Some ward ->
  (forall now,
      resolve wards trafficReduction stations selectedFeatureId feature now = Return ward) /\
  (exists layer,
      onEachFeature wards trafficReduction stations selectedFeatureId feature = Return layer /\
      tt_isEstimated (bindTooltip layer) = false /\
      tt_aqi (bindTooltip layer) = Ward.aqi ward /\
      tt_dominant_source (bindTooltip layer) = Some (Ward.dominant_source ward) /\
      forall now,
        on_click layer now =
        Return {| setSelectedFeatureId := Feature.id feature; onWardClick := ward |}) /\
  (exists style,
      getFeatureStyle wards trafficReduction stations selectedFeatureId feature = Return style /\
      fillColor style = getAqiHexColor (Ward.aqi ward)).
Proof.
  intros Hm. unfold resolve, onEachFeature, getFeatureStyle. rewrite Hm. cbn [bind].
  split; [reflexivity | split].
  - eexists. split; [reflexivity |]. cbn. repeat split.
  - eexists. split; reflexivity.
Qed.

Lemma matched_ward_untouched_witness :
  findWardForFeature [Sample.ward0; Sample.ward7] (Some Sample.feature3) = Some Sample.ward7 /\
  resolve [Sample.ward0; Sample.ward7] 50 [Sample.station 28.70 77.10 (Num 100) (Num 40)]
    JNull Sample.feature3 "2025-01-10T09:30:00.000Z" = Return Sample.ward7.
Proof.
  assert (Hm : findWardForFeature [Sample.ward0; Sample.ward7] (Some Sample.feature3)
               = Some Sample.ward7) by reflexivity.
  split; [exact Hm |].
  exact (proj1 (matched_ward_untouched _ [Sample.station 28.70 77.10 (Num 100) (Num 40)]
                  JNull _ _ 50 Hm) "2025-01-10T09:30:00.000Z"%string).
Defined.

(** C9.  Resolution is deterministic: resolving the same feature twice
    with the same stations, wards and scenario parameter -- at two times,
    and whatever feature is selected at each -- either throws both times
    or yields two records that agree on every field but the timestamp. *)
Theorem resolve_deterministic (wards : list Ward.t) (trafficReduction : float)
    (stations : list Station.t) (feature : Feature.t)
    (selected1 selected2 : jsval) (now1 now2 : string) :
  both same_but_timestamp
    (resolve wards trafficReduction stations selected1 feature now1)
    (resolve wards trafficReduction stations selected2 feature now2).
Proof.
  unfold resolve, onEachFeature.
  destruct (findWardForFeature wards (Some feature)) as [ward |]; cbn [bind].
  - cbn. repeat split.
  - destruct (getInterpolatedAqi trafficReduction stations (Some feature)) as [aqi |];
      cbn [bind on_click]; [| exact I].
    destruct (getFeatureCentroid (Some feature)) as [c |]; cbn [bind]; [| exact I].
    cbn [both onWardClick]. unfold same_but_timestamp. cbn. repeat split.
Qed.

(** C10.  For every unmatched feature whose properties lack a [Ward_No]:
    the record a click synthesizes shows the ward number "N/A", while its
    population and area come from the hash of the string "0", the
    character code 48: population 139232, and area [2.5 + (48 * 0.17) mod
    12] rounded to one decimal, 10.7.  Such a feature is never matched, and
    the record is produced whenever the feature's geometry is not a
    MultiPolygon with no part. *)
Theorem placeholder_without_Ward_No (wards : list Ward.t) (trafficReduction : float)
    (stations : list Station.t) (selectedFeatureId : jsval) (feature : Feature.t) :
  feature_Ward_No feature = JUndefined ->
  findWardForFeature wards (Some feature) = None /\
  wardNoHash feature = 48 /\
  (forall now record,
      resolve wards trafficReduction stations selectedFeatureId feature now = Return record ->
      Ward.ward_no record = JStr "N/A" /\
      Ward.population record = 139232 /\
      Ward.area_sqkm record = Math_round ((2.5 + js_mod (48 * c_0_17) 12) * 10) / 10 /\
      Ward.area_sqkm record = 10.7) /\
  (Feature.geometry feature <> Some (MultiPolygon []) ->
   forall now, exists record,
     resolve wards trafficReduction stations selectedFeatureId feature now = Return record).
Proof.
  intros Hno.
  assert (Hnone : findWardForFeature wards (Some feature) = None)
    by (apply unmatched_without_Ward_No; rewrite Hno; reflexivity).
  assert (Hhash : wardNoHash feature = 48)
    by (unfold wardNoHash; rewrite Hno; reflexivity).
  split; [exact Hnone | split; [exact Hhash | split]].
  - intros now record. unfold resolve, onEachFeature. rewrite Hnone, Hhash, Hno.
    destruct (getInterpolatedAqi trafficReduction stations (Some feature)) as [aqi |];
      cbn [bind on_click]; [| discriminate].
    destruct (getFeatureCentroid (Some feature)) as [c |]; cbn [bind]; [| discriminate].
    intros E. injection E as <-. cbn [onWardClick Ward.ward_no Ward.population Ward.area_sqkm].
    repeat split.
  - intros Hg now. unfold resolve, onEachFeature. rewrite Hnone.
    destruct (getInterpolatedAqi_returns stations trafficReduction feature Hg) as [aqi ->].
    cbn [bind on_click].
    rewrite (getFeatureCentroid_GeometryCentroid feature Hg). cbn [bind].
    eexists. reflexivity.
Qed.

Lemma placeholder_without_Ward_No_witness :
  feature_Ward_No Sample.feature9 = JUndefined /\
  Feature.geometry Sample.feature9 <> Some (MultiPolygon []) /\
  exists record,
    resolve [Sample.ward7] 0 [Sample.station 28.70 77.10 (Num 100) (Num 40)]
      JNull Sample.feature9 "2025-01-10T09:30:00.000Z" = Return record /\
    Ward.ward_no record = JStr "N/A" /\
    Ward.population record = 139232 /\
    Ward.area_sqkm record = 10.7.
Proof.
  assert (Hno : feature_Ward_No Sample.feature9 = JUndefined) by reflexivity.
  assert (Hg : Feature.geometry Sample.feature9 <> Some (MultiPolygon []))
    by (simpl; discriminate).
  pose proof (placeholder_without_Ward_No [Sample.ward7] 0
                [Sample.station 28.70 77.10 (Num 100) (Num 40)] JNull
                Sample.feature9 Hno) as (_ & _ & Hfields & Hreturns).
  destruct (Hreturns Hg "2025-01-10T09:30:00.000Z"%string) as [record Hr].
  split; [exact Hno | split; [exact Hg |]].
  exists record. destruct (Hfields _ _ Hr) as (H1 & H2 & _ & H4).
  repeat split; assumption.
Defined.

(* ================================================================= *)
(** ** Worked examples *)

(** [Math.round] rounds a tie towards +infinity and keeps the sign of a
    zero result. *)
Example Math_round_ties :
  Math_round 2.5 = 3 /\ Math_round (-2.5) = -2 /\ Math_round (-0.5) = neg_zero /\
  Math_round 0.49999999999999994 = 0 /\ Math_round 106.6 = 107 /\
  Math_round nan = nan /\ Math_round infinity = infinity.
Proof. repeat split; reflexivity. Qed.

(** The remainder takes the sign of the dividend and is exact. *)
Example js_mod_values :
  js_mod 59232 400000 = 59232 /\ js_mod 5.5 2 = 1.5 /\ js_mod (-5.5) 2 = -1.5 /\
  js_mod 0.3 0.1 = 0.099999999999999978 /\ js_mod 7 0 = nan /\ js_mod 7 infinity = 7.
Proof. repeat split; reflexivity. Qed.

(** The hash of a ward number is the sum of its character codes. *)
Example wardNoHash_values :
  wardNoHash Sample.feature3 = 55 /\
  wardNoHash Sample.feature0 = 48 /\
  wardNoHash (Sample.feature "feature-1" (JInt 12) None) = 99.
Proof. repeat split; reflexivity. Qed.

(** The specification's end-to-end scenarios: a feature with [Ward_No]
    "7" resolves to the ward numbered "7" even under an active scenario;
    a feature with no [Ward_No], between a station reading 100 and one
    reading 300, gets their inverse-distance blend and is flagged
    estimated. *)
Example resolve_scenarios :
  let stations := [Sample.station 28.70 77.10 (Num 100) (Num 40);
                   Sample.station 28.71 77.11 (Num 300) (Num 60)] in
  let between :=
    Sample.feature "feature-9" JUndefined
      (Some (Polygon [[(77.10, 28.70); (77.11, 28.71)]])) in
  resolve [Sample.ward7] 50 stations JNull Sample.feature3 "now" = Return Sample.ward7 /\
  getInterpolatedAqi 0 stations (Some between) = Return 200 /\
  getInterpolatedAqi 50 stations (Some between) = Return 160 /\
  match onEachFeature [Sample.ward7] 0 stations JNull between with
  | Return layer => tt_isEstimated (bindTooltip layer) = true
  | TypeError => False
  end.
Proof. repeat split; reflexivity. Qed.

(* ================================================================= *)
(** ** Further properties of the map, the panels and the shell *)

(** *** The order of numbers, and checks over a range of integers *)

Lemma SFleb_trans (x y z : spec_float) :
  SFleb x y = true -> SFleb y z = true -> SFleb x z = true.
Proof.
  unfold SFleb, SFcompare.
  destruct x as [[] | [] | | [] m1 e1], y as [[] | [] | | [] m2 e2],
           z as [[] | [] | | [] m3 e3]; try reflexivity; try discriminate;
    rewrite ?Pos.compare_cont_spec; cbn [Pos.switch_Eq];
    fold (Pos.compare m1 m2); fold (Pos.compare m2 m3); fold (Pos.compare m1 m3);
    destruct (Z.compare_spec e1 e2), (Z.compare_spec e2 e3), (Z.compare_spec e1 e3);
    try lia; try reflexivity; try discriminate;
    destruct (Pos.compare_spec m1 m2), (Pos.compare_spec m2 m3), (Pos.compare_spec m1 m3);
    try lia; try reflexivity; try discriminate.
Qed.

Lemma leb_trans (x y z : float) :
  (x <=? y) = true -> (y <=? z) = true -> (x <=? z) = true.
Proof. rewrite !leb_spec. apply SFleb_trans. Qed.

Lemma Leibniz_eqb_eq (x y : float) : PrimFloat.Leibniz.eqb x y = true -> x = y.
Proof. apply FloatAxioms.Leibniz.eqb_spec. Qed.

Lemma Zrange_In (lo : Z) (n : nat) (z : Z) :
  (lo <= z < lo + Z.of_nat n)%Z -> In z (Zrange lo n).
Proof.
  revert lo. induction n as [| n IH]; intros lo H; [lia |].
  cbn [Zrange]. destruct (Z.eq_dec lo z) as [-> | Hne]; [left; reflexivity |].
  right. apply IH. lia.
Qed.

Lemma forallb_Zrange (P : Z -> bool) (lo : Z) (n : nat) :
  forallb P (Zrange lo n) = true ->
  forall z, (lo <= z < lo + Z.of_nat n)%Z -> P z = true.
Proof.
  intros H z Hz. rewrite forallb_forall in H. apply H, Zrange_In, Hz.
Qed.

(** *** The AQI scale *)

(** X1.  For every AQI -- NaN included, which falls in the last band --
    the map's colour is a colour of the legend, the details panel and the
    sidebar use the same colour, and the panel's label is the one the
    legend pairs with that colour. *)
Theorem aqi_scale_consistent (aqi : float) :
  DetailsPanel.getAqiColor aqi = getAqiHexColor aqi /\
  Sidebar.getAqiColor aqi = getAqiHexColor aqi /\
  exists label,
    In (label, getAqiHexColor aqi) legend /\
    String.prefix (DetailsPanel.getAqiLabel aqi) label = true.
Proof.
  split; [reflexivity | split; [reflexivity |]].
  unfold getAqiHexColor, DetailsPanel.getAqiLabel, legend.
  destruct (aqi <=? 50); [eexists; split; [left; reflexivity | reflexivity] |].
  destruct (aqi <=? 100);
    [eexists; split; [right; left; reflexivity | reflexivity] |].
  destruct (aqi <=? 150);
    [eexists; split; [do 2 right; left; reflexivity | reflexivity] |].
  destruct (aqi <=? 200);
    [eexists; split; [do 3 right; left; reflexivity | reflexivity] |].
  destruct (aqi <=? 300);
    [eexists; split; [do 4 right; left; reflexivity | reflexivity] |].
  eexists; split; [do 5 right; left; reflexivity | reflexivity].
Qed.

(** X2.  The colour scale is monotone: of two AQI values, the lower one
    never gets a colour further down the legend than the higher one. *)
Theorem getAqiHexColor_monotone (a b : float) :
  (a <=? b) = true ->
  exists i j,
    legend_rank (getAqiHexColor a) = Some i /\
    legend_rank (getAqiHexColor b) = Some j /\
    (i <= j)%nat.
Proof.
  intros Hab.
  assert (Hdown : forall t, (b <=? t) = true -> (a <=? t) = true)
    by (intros t; apply leb_trans; exact Hab).
  unfold getAqiHexColor.
  destruct (b <=? 50) eqn:E1; [rewrite (Hdown _ E1) |];
  [| destruct (b <=? 100) eqn:E2; [rewrite (Hdown _ E2) |];
   [| destruct (b <=? 150) eqn:E3; [rewrite (Hdown _ E3) |];
    [| destruct (b <=? 200) eqn:E4; [rewrite (Hdown _ E4) |];
     [| destruct (b <=? 300) eqn:E5; [rewrite (Hdown _ E5) |]]]]];
  destruct (a <=? 50); try (do 2 eexists; repeat split; [reflexivity | reflexivity | lia]);
  destruct (a <=? 100); try (do 2 eexists; repeat split; [reflexivity | reflexivity | lia]);
  destruct (a <=? 150); try (do 2 eexists; repeat split; [reflexivity | reflexivity | lia]);
  destruct (a <=? 200); try (do 2 eexists; repeat split; [reflexivity | reflexivity | lia]);
  destruct (a <=? 300); do 2 eexists; repeat split; try reflexivity; lia.
Qed.

Lemma getAqiHexColor_monotone_witness :
  (151 <=? 300.5) = true /\
  exists i j,
    legend_rank (getAqiHexColor 151) = Some i /\
    legend_rank (getAqiHexColor 300.5) = Some j /\
    (i <= j)%nat.
Proof.
  split; [reflexivity |].
  exact (getAqiHexColor_monotone 151 300.5 eq_refl).
Defined.

(** *** Marker radius *)

Lemma radius_ok_all : forallb radius_ok (Zrange 0 1001) = true.
Proof. vm_cast_no_check (eq_refl true). Qed.

Lemma IntegerNumber_eqb_refl (a : IntegerNumber) : IntegerNumber_eqb a a = true.
Proof. destruct a as [v | b]; simpl; [apply Z.eqb_refl | destruct b; reflexivity]. Qed.

(** Every value of the kinds above is identical to itself (none is NaN). *)
Lemma strict_eq_refl (v : jsval) : strict_eq v v = true.
Proof.
  destruct v as [| | b | z | s]; simpl; try reflexivity.
  - destruct b; reflexivity.
  - apply IntegerNumber_eqb_refl.
  - apply String.eqb_refl.
Qed.

(** X3.  For every integral AQI from 0 to 1000 the marker radius lies
    between 8 and 28, is 28 from 500 on, and never shrinks as the AQI
    grows.  A ward's marker is one and a half times as large, with the
    thicker outline, when the ward is the selected one; it is plain when a
    ward with another id is selected.  With nothing selected it is plain
    too, unless the ward has no id: line 332 then compares [undefined] with
    [undefined], and the marker is drawn as if selected. *)
Theorem getMarkerRadius_bounds (aqi : Z) :
  (0 <= aqi <= 1000)%Z ->
  (8 <=? getMarkerRadius (of_Z aqi)) = true /\
  (getMarkerRadius (of_Z aqi) <=? 28) = true /\
  ((500 <= aqi)%Z -> getMarkerRadius (of_Z aqi) = 28) /\
  (getMarkerRadius (of_Z aqi) <=? getMarkerRadius (of_Z (aqi + 1))) = true /\
  (forall ward,
      Ward.aqi ward = of_Z aqi ->
      wardMarker (Some ward) ward = (getMarkerRadius (of_Z aqi) * 1.5, 3) /\
      (forall other,
          strict_eq (Ward.id other) (Ward.id ward) = false ->
          wardMarker (Some other) ward = (getMarkerRadius (of_Z aqi), 1)) /\
      wardMarker None ward =
        match Ward.id ward with
        | JUndefined => (getMarkerRadius (of_Z aqi) * 1.5, 3)
        | _ => (getMarkerRadius (of_Z aqi), 1)
        end).
Proof.
  intros Hr.
  pose proof (forallb_Zrange radius_ok 0 1001 radius_ok_all aqi ltac:(lia)) as H.
  unfold radius_ok in H. cbv zeta in H.
  apply andb_prop in H as [H Hnext]. apply andb_prop in H as [H Hcap].
  apply andb_prop in H as [Hlo Hhi].
  repeat split; try assumption.
  - intros H500. apply Z.leb_le in H500. rewrite H500 in Hcap.
    apply Leibniz_eqb_eq. exact Hcap.
  - unfold wardMarker. rewrite H, strict_eq_refl. reflexivity.
  - intros other Hother. unfold wardMarker. rewrite H, Hother. reflexivity.
  - unfold wardMarker. rewrite H.
    destruct (Ward.id ward); reflexivity.
Qed.

Lemma getMarkerRadius_bounds_witness :
  (0 <= 640 <= 1000)%Z /\
  getMarkerRadius (of_Z 640) = 28 /\
  wardMarker (Some (Sample.ward (JInt 12) 640)) (Sample.ward (JInt 12) 640) = (42, 3) /\
  wardMarker (Some Sample.ward7) (Sample.ward (JInt 12) 640) = (28, 1) /\
  wardMarker None (Sample.ward (JInt 12) 640) = (28, 1) /\
  wardMarker None (Sample.ward JUndefined 640) = (42, 3).
Proof.
  assert (H : (0 <= 640 <= 1000)%Z) by lia.
  pose proof (getMarkerRadius_bounds 640 H) as [_ [_ [Hcap [_ Hmarker]]]].
  split; [exact H |].
  split; [exact (Hcap ltac:(lia)) |].
  destruct (Hmarker (Sample.ward (JInt 12) 640) eq_refl) as [Hsel [Hother Hnone]].
  split; [exact Hsel |].
  split; [exact (Hother Sample.ward7 eq_refl) |].
  split; [exact Hnone |].
  exact (proj2 (proj2 (Hmarker (Sample.ward JUndefined 640) eq_refl))).
Defined.

(** *** The scenario adjustment over the slider *)

Lemma adjusted_ok_all :
  forallb (fun p => forallb (adjusted_ok p) (Zrange 0 501)) (Zrange 0 101) = true.
Proof. vm_cast_no_check (eq_refl true). Qed.

Lemma adjusted_ok_at (p v : Z) :
  (0 <= p <= 100)%Z -> (0 <= v <= 500)%Z -> adjusted_ok p v = true.
Proof.
  intros Hp Hv.
  pose proof (forallb_Zrange _ 0 101 adjusted_ok_all p ltac:(lia)) as H.
  exact (forallb_Zrange _ 0 501 H v ltac:(lia)).
Qed.

(** The adjusted AQI is an integer within one half of the exact value
    [v * (250 - p) / 250]. *)
Lemma adjusted_value (p v : Z) :
  (0 <= p <= 100)%Z -> (0 <= v <= 500)%Z ->
  exists a : Z,
    adjusted p v = of_Z a /\
    (a = exactly_adjusted p v \/
     ((2 * v * (250 - p)) mod 500 = 250 /\ a = exactly_adjusted p v - 1)%Z) /\
    (2 * v * (250 - p) - 250 <= 500 * a <= 2 * v * (250 - p) + 250)%Z.
Proof.
  intros Hp Hv.
  pose proof (adjusted_ok_at p v Hp Hv) as H.
  unfold adjusted_ok in H. cbv zeta in H.
  unfold exactly_adjusted in *.
  pose proof (Z.div_mod (2 * v * (250 - p) + 250) 500 ltac:(lia)) as Hd.
  pose proof (Z.mod_pos_bound (2 * v * (250 - p) + 250) 500 ltac:(lia)) as Hm.
  set (N := (2 * v * (250 - p))%Z) in *.
  apply orb_prop in H as [H | H].
  - apply Leibniz_eqb_eq in H. exists ((N + 250) / 500)%Z.
    split; [exact H | split; [left; reflexivity | lia]].
  - apply andb_prop in H as [Ht H]. apply Z.eqb_eq in Ht. apply Leibniz_eqb_eq in H.
    exists ((N + 250) / 500 - 1)%Z.
    split; [exact H | split; [right; split; [exact Ht | reflexivity] |]].
    pose proof (Z.div_mod N 500 ltac:(lia)) as Hd'. rewrite Ht in Hd'.
    assert (((N + 250) / 500) = N / 500 + 1)%Z.
    { replace (N + 250)%Z with ((N / 500 + 1) * 500)%Z by lia.
      apply Z.div_mul. lia. }
    lia.
Qed.

(** X4.  At every slider position (0 to 100) and for every integral raw
    AQI from 0 to 500, the adjusted AQI is an integer: the exactly
    computed [round (v * (1 - 0.4 * p / 100))], except that at a tie the
    rounded arithmetic may land one below it.  It is never above the raw
    AQI, never more than 40 percent (and the rounding) below it, and the
    raw AQI itself at position 0. *)
Theorem adjusted_integral (p v : Z) :
  (0 <= p <= 100)%Z -> (0 <= v <= 500)%Z ->
  exists a : Z,
    applyTrafficReduction (Sidebar.sliderValue p) (of_Z v) = of_Z a /\
    (a = exactly_adjusted p v \/
     ((2 * v * (250 - p)) mod 500 = 250 /\ a = exactly_adjusted p v - 1)%Z) /\
    (6 * v <= 10 * a + 5)%Z /\ (a <= v)%Z /\
    (p = 0%Z -> applyTrafficReduction (Sidebar.sliderValue p) (of_Z v) = of_Z v).
Proof.
  intros Hp Hv.
  destruct (adjusted_value p v Hp Hv) as (a & Ha & Hex & Hb).
  exists a. split; [exact Ha | split; [exact Hex |]].
  split; [nia | split; [nia |]].
  intros ->. reflexivity.
Qed.

Lemma adjusted_integral_witness :
  (0 <= 17 <= 100)%Z /\ (0 <= 125 <= 500)%Z /\
  exists a : Z,
    applyTrafficReduction (Sidebar.sliderValue 17) (of_Z 125) = of_Z a /\
    (6 * 125 <= 10 * a + 5)%Z /\ (a <= 125)%Z.
Proof.
  assert (Hp : (0 <= 17 <= 100)%Z) by lia.
  assert (Hv : (0 <= 125 <= 500)%Z) by lia.
  split; [exact Hp | split; [exact Hv |]].
  destruct (adjusted_integral 17 125 Hp Hv) as (a & Ha & _ & Hlo & Hhi & _).
  exists a. split; [exact Ha | split; [exact Hlo | exact Hhi]].
Defined.

(** At 17 percent, 125 is adjusted to 116, although 125 * 0.932 is the
    tie 116.5. *)
Example adjusted_tie :
  applyTrafficReduction (Sidebar.sliderValue 17) (of_Z 125) = 116 /\
  exactly_adjusted 17 125 = 117%Z.
Proof. split; reflexivity. Qed.

(** X5.  Over the slider positions and the integral raw AQIs from 0 to
    500, the adjustment is monotone both ways: a larger traffic reduction
    never gives a higher adjusted AQI, and a higher raw AQI never gives a
    lower one. *)
Theorem adjusted_monotone (p q v w : Z) :
  (0 <= p <= q)%Z -> (q <= 100)%Z -> (0 <= v <= w)%Z -> (w <= 500)%Z ->
  exists a b c : Z,
    applyTrafficReduction (Sidebar.sliderValue p) (of_Z v) = of_Z a /\
    applyTrafficReduction (Sidebar.sliderValue q) (of_Z v) = of_Z b /\
    applyTrafficReduction (Sidebar.sliderValue p) (of_Z w) = of_Z c /\
    (b <= a <= c)%Z.
Proof.
  intros Hpq Hq Hvw Hw.
  destruct (adjusted_value p v ltac:(lia) ltac:(lia)) as (a & Ha & _ & Hab).
  assert (Hdown : exists b, adjusted q v = of_Z b /\ (b <= a)%Z).
  { destruct (Z.eq_dec p q) as [<- | Hne]; [exists a; split; [exact Ha | lia] |].
    destruct (adjusted_value q v ltac:(lia) ltac:(lia)) as (b & Hb & _ & Hbb).
    exists b. split; [exact Hb |].
    destruct (Z.eq_dec v 0) as [-> | Hv0]; [lia |].
    assert (v * (q - p) >= v)%Z by nia. nia. }
  assert (Hup : exists c, adjusted p w = of_Z c /\ (a <= c)%Z).
  { destruct (Z.eq_dec v w) as [<- | Hne]; [exists a; split; [exact Ha | lia] |].
    destruct (adjusted_value p w ltac:(lia) ltac:(lia)) as (c & Hc & _ & Hcb).
    exists c. split; [exact Hc |].
    assert ((w - v) * (250 - p) >= 150)%Z by nia. nia. }
  destruct Hdown as (b & Hb & Hba), Hup as (c & Hc & Hac).
  exists a, b, c. repeat split; assumption.
Qed.

Lemma adjusted_monotone_witness :
  (0 <= 20 <= 75)%Z /\ (75 <= 100)%Z /\ (0 <= 180 <= 320)%Z /\ (320 <= 500)%Z /\
  exists a b c : Z,
    applyTrafficReduction (Sidebar.sliderValue 20) (of_Z 180) = of_Z a /\
    applyTrafficReduction (Sidebar.sliderValue 75) (of_Z 180) = of_Z b /\
    applyTrafficReduction (Sidebar.sliderValue 20) (of_Z 320) = of_Z c /\
    (b <= a <= c)%Z.
Proof.
  assert (H1 : (0 <= 20 <= 75)%Z) by lia.
  assert (H2 : (75 <= 100)%Z) by lia.
  assert (H3 : (0 <= 180 <= 320)%Z) by lia.
  assert (H4 : (320 <= 500)%Z) by lia.
  split; [exact H1 | split; [exact H2 | split; [exact H3 | split; [exact H4 |]]]].
  exact (adjusted_monotone 20 75 180 320 H1 H2 H3 H4).
Defined.

(** *** The estimated record *)

(** The fields of the record a click on an unmatched feature produces. *)
Lemma resolve_estimated (wards : list Ward.t) (trafficReduction : float)
    (stations : list Station.t) (selectedFeatureId : jsval) (feature : Feature.t)
    (now : string) (record : Ward.t) :
  findWardForFeature wards (Some feature) = None ->
  resolve wards trafficReduction stations selectedFeatureId feature now = Return record ->
  exists centroid,
    getFeatureCentroid (Some feature) = Return centroid /\
    getInterpolatedAqi trafficReduction stations (Some feature) = Return (Ward.aqi record) /\
    Ward.id record = Feature.id feature /\
    Ward.name record = or_else (feature_Ward_Name feature) (JStr "Unknown Ward") /\
    Ward.coordinates record =
      match centroid with Some c => c | None => LatLon.mk 28.7041 77.1025 end /\
    Ward.pollutants record = interpolatedPollutants stations (Ward.coordinates record) /\
    Ward.population record = 80000 + js_mod (wardNoHash feature * 1234) 400000 /\
    Ward.area_sqkm record =
      Math_round ((2.5 + js_mod (wardNoHash feature * c_0_17) 12) * 10) / 10 /\
    Ward.pollution_breakdown record =
      [("traffic", 30); ("industrial", 20); ("construction_dust", 20);
       ("biomass_burning", 15); ("other", 15)]%string /\
    Ward.last_updated record = now.
Proof.
  intros Hnone. unfold resolve, onEachFeature. rewrite Hnone.
  destruct (getInterpolatedAqi trafficReduction stations (Some feature)) as [aqi |];
    cbn [bind on_click]; [| discriminate].
  destruct (getFeatureCentroid (Some feature)) as [c |]; cbn [bind]; [| discriminate].
  intros E. injection E as <-. exists c.
  repeat split. cbn. unfold or_else.
  destruct (truthy (feature_Ward_Name feature)) eqn:Et; [rewrite Et |]; reflexivity.
Qed.

Lemma N_of_ascii_bound (c : ascii) : (0 <= Z.of_N (N_of_ascii c) < 256)%Z.
Proof.
  destruct c as [[] [] [] [] [] [] [] []]; vm_compute; split; congruence.
Qed.

Lemma hash_step_ok_all : forallb hash_step_ok (Zrange 0 2041) = true.
Proof. vm_cast_no_check (eq_refl true). Qed.

Lemma placeholder_ok_all : forallb placeholder_ok (Zrange 0 2041) = true.
Proof. vm_cast_no_check (eq_refl true). Qed.

Lemma hash_step (n : Z) (c : ascii) :
  (0 <= n <= 2040)%Z ->
  of_Z n + charCodeAt0 c = of_Z (n + Z.of_N (N_of_ascii c)).
Proof.
  intros Hn.
  pose proof (forallb_Zrange _ 0 2041 hash_step_ok_all n ltac:(lia)) as H.
  unfold hash_step_ok in H. cbv zeta in H.
  pose proof (N_of_ascii_bound c) as Hb.
  pose proof (forallb_Zrange _ 0 256 H (Z.of_N (N_of_ascii c)) ltac:(lia)) as Hc.
  apply Leibniz_eqb_eq in Hc. exact Hc.
Qed.

(** The hash of a string of at most eight characters is the sum of its
    character codes, computed exactly. *)
Lemma hash_exact (l : list ascii) (n : Z) :
  (0 <= n)%Z -> (n + 255 * Z.of_nat (List.length l) <= 2295)%Z ->
  fold_left (fun a c => a + charCodeAt0 c) l (of_Z n) =
  of_Z (fold_left (fun n c => (n + Z.of_N (N_of_ascii c))%Z) l n) /\
  (0 <= fold_left (fun n c => (n + Z.of_N (N_of_ascii c))%Z) l n
     <= n + 255 * Z.of_nat (List.length l))%Z.
Proof.
  revert n. induction l as [| c l IH]; intros n Hn Hlen.
  - simpl. split; [reflexivity | lia].
  - cbn [fold_left List.length] in *.
    pose proof (N_of_ascii_bound c) as Hc.
    rewrite hash_step by lia.
    destruct (IH (n + Z.of_N (N_of_ascii c))%Z ltac:(lia) ltac:(lia)) as [E B].
    split; [exact E | lia].
Qed.

Lemma length_list_ascii (s : string) :
  List.length (list_ascii_of_string s) = String.length s.
Proof. induction s as [| c s IH]; simpl; [reflexivity | rewrite IH; reflexivity]. Qed.

(** X6.  For every unmatched feature whose ward-number string ("0" when
    the [Ward_No] is missing or falsy) has at most eight characters, the
    placeholder population of the estimated record is the integer
    [80000 + (h * 1234) mod 400000], [h] being the sum of the string's
    character codes, so it lies between 80000 and 479999; and the
    placeholder area is a number of tenths between 2.5 and 14.5. *)
Theorem placeholder_bounds (wards : list Ward.t) (trafficReduction : float)
    (stations : list Station.t) (selectedFeatureId : jsval) (feature : Feature.t)
    (now : string) (record : Ward.t) :
  findWardForFeature wards (Some feature) = None ->
  resolve wards trafficReduction stations selectedFeatureId feature now = Return record ->
  (String.length (String_ (or_else (feature_Ward_No feature) (JStr "0"))) <= 8)%nat ->
  exists n k : Z,
    Ward.population record = of_Z n /\
    n = (80000 +
         (sum_codes (String_ (or_else (feature_Ward_No feature) (JStr "0"))) * 1234)
           mod 400000)%Z /\
    (80000 <= n < 480000)%Z /\
    Ward.area_sqkm record = of_Z k / 10 /\
    (25 <= k <= 145)%Z.
Proof.
  intros Hnone Hres Hlen.
  destruct (resolve_estimated _ _ _ _ _ _ _ Hnone Hres)
    as (c & _ & _ & _ & _ & _ & _ & Hpop & Harea & _).
  set (s := String_ (or_else (feature_Ward_No feature) (JStr "0"))) in *.
  destruct (hash_exact (list_ascii_of_string s) 0 ltac:(lia)
              ltac:(rewrite length_list_ascii; lia)) as [Hhash Hbound].
  rewrite length_list_ascii in Hbound.
  assert (Hh : wardNoHash feature = of_Z (sum_codes s)) by exact Hhash.
  fold (sum_codes s) in Hbound.
  pose proof (forallb_Zrange _ 0 2041 placeholder_ok_all (sum_codes s) ltac:(lia)) as Hok.
  unfold placeholder_ok in Hok. cbv zeta in Hok. apply andb_prop in Hok as [Hp Ha].
  apply Leibniz_eqb_eq in Hp.
  destruct (to_Z (Math_round ((2.5 + js_mod (of_Z (sum_codes s) * c_0_17) 12) * 10)))
    as [k |]; [| discriminate].
  apply andb_prop in Ha as [Ha Hk2]. apply andb_prop in Ha as [Ha Hk1].
  apply Leibniz_eqb_eq in Ha. apply Z.leb_le in Hk1, Hk2.
  exists (80000 + (sum_codes s * 1234) mod 400000)%Z, k.
  pose proof (Z.mod_pos_bound (sum_codes s * 1234) 400000 ltac:(lia)).
  repeat split; try lia.
  - rewrite Hpop, Hh. exact Hp.
  - rewrite Harea, Hh, Ha. reflexivity.
Qed.

Lemma placeholder_bounds_witness :
  exists record,
    resolve [Sample.ward7] 0 [] JNull
      (Sample.feature "feature-2" (JStr "104-N") None) "now" = Return record /\
    exists n k : Z,
      Ward.population record = of_Z n /\ (80000 <= n < 480000)%Z /\
      Ward.area_sqkm record = of_Z k / 10 /\ (25 <= k <= 145)%Z.
Proof.
  eexists. split; [reflexivity |].
  destruct (placeholder_bounds [Sample.ward7] 0 [] JNull
              (Sample.feature "feature-2" (JStr "104-N") None) "now" _
              eq_refl eq_refl ltac:(simpl; lia))
    as (n & k & Hn & _ & Hb & Hk & Hkb).
  exists n, k. repeat split; try assumption; lia.
Defined.

(** *** Feature ids *)

Lemma feature_id_of_index_truthy (idx : nat) : truthy (feature_id_of_index idx) = true.
Proof. reflexivity. Qed.

Lemma to_int_proper (z : Z) : Z.to_int z <> Decimal.Pos Decimal.Nil /\
                             Z.to_int z <> Decimal.Neg Decimal.Nil.
Proof.
  destruct z as [| p | p]; simpl; split; try discriminate;
    intros E; injection E as E; exact (DecimalPos.Unsigned.to_uint_nonnil p E).
Qed.

(** Writing an integer in decimal digits is injective. *)
Lemma digits_inj (x y : Z) : digits x = digits y -> x = y.
Proof.
  unfold digits. intros E. apply DecimalZ.to_int_inj.
  destruct (to_int_proper x) as [Hx1 Hx2], (to_int_proper y) as [Hy1 Hy2].
  pose proof (NilZero.isi _ Hx1 Hx2) as Ex. pose proof (NilZero.isi _ Hy1 Hy2) as Ey.
  rewrite E in Ex. congruence.
Qed.

(** An integer up to 2^53 is a Number, and [String] writes its digits; so
    [index_String] is [String] of the index wherever an array can have one. *)
Lemma Number_of_integer_safe (z : Z) :
  (Z.abs z <= 2 ^ 53)%Z -> Number_of_integer z = FiniteNumber z.
Proof.
  intros Hz. unfold Number_of_integer.
  assert (Hround : round_to_53_bits (Z.abs z) = Z.abs z).
  { unfold round_to_53_bits.
    destruct (Z.eq_dec (Z.abs z) (2 ^ 53)) as [E | NE]; [rewrite E; reflexivity |].
    destruct (Z.eq_dec (Z.abs z) 0) as [E0 | NE0]; [rewrite E0; reflexivity |].
    assert (Hlog : (Z.log2 (Z.abs z) < 53)%Z) by (apply Z.log2_lt_pow2; lia).
    destruct (Z.leb_spec (Z.log2 (Z.abs z) + 1) 53); [reflexivity | lia]. }
  cbv zeta. rewrite Hround.
  assert (Hlt : (Z.abs z < 2 ^ 1024)%Z).
  { apply Z.le_lt_trans with (1 := Hz). apply Z.pow_lt_mono_r; lia. }
  apply Z.ltb_lt in Hlt. rewrite Hlt. f_equal.
  rewrite Z.mul_comm. apply Z.abs_sgn.
Qed.

Lemma index_String_faithful (idx : nat) :
  (Z.of_nat idx <= 2 ^ 53)%Z -> index_String idx = String_ (JInt (Z.of_nat idx)).
Proof.
  intros H. unfold index_String, String_, Number_toString.
  rewrite Z.abs_eq by lia. apply Z.leb_le in H. rewrite H. reflexivity.
Qed.

(** Beyond 2^53 an integer is rounded to a Number before it is printed or
    compared, and from 1e21 on it prints with an exponent. *)
Example Number_toString_examples :
  String_ (JInt 12) = "12"%string /\
  String_ (JInt (-7)) = "-7"%string /\
  String_ (JInt (2 ^ 53 + 1)) = "9007199254740992"%string /\
  String_ (JInt (2 ^ 60)) = "1152921504606847000"%string /\
  String_ (JInt (10 ^ 21)) = "1e+21"%string /\
  String_ (JInt (10 ^ 23)) = "1e+23"%string /\
  String_ (JInt 123456789012345678901234) = "1.2345678901234569e+23"%string /\
  String_ (JInt (- 2 ^ 70)) = "-1.1805916207174113e+21"%string /\
  String_ (JInt (2 ^ 1024)) = "Infinity"%string /\
  strict_eq (JInt (2 ^ 53)) (JInt (2 ^ 53 + 1)) = true /\
  strict_eq (JInt (2 ^ 53)) (JInt (2 ^ 53 + 2)) = false.
Proof. repeat split; vm_compute; reflexivity. Qed.

Lemma feature_id_of_index_inj (i j : nat) :
  feature_id_of_index i = feature_id_of_index j -> i = j.
Proof.
  unfold feature_id_of_index, index_String. intros E. injection E as E.
  apply digits_inj in E. lia.
Qed.

Lemma addFeatureIds_from_nth (features : list Feature.t) (idx i : nat) (f : Feature.t) :
  nth_error features i = Some f ->
  exists g,
    nth_error (addFeatureIds_from idx features) i = Some g /\
    Feature.properties g = Feature.properties f /\
    Feature.geometry g = Feature.geometry f /\
    Feature.id g = or_else (Feature.id f) (feature_id_of_index (idx + i)).
Proof.
  revert idx i. induction features as [| f0 rest IH]; intros idx i Hi.
  - destruct i; discriminate.
  - destruct i as [| i]; simpl in *.
    + injection Hi as ->. eexists. repeat split. rewrite Nat.add_0_r. reflexivity.
    + destruct (IH (S idx) i Hi) as (g & Hg & Hp & Hgeo & Hid).
      exists g. repeat split; try assumption.
      rewrite Hid. f_equal. f_equal. lia.
Qed.

Lemma addFeatureIds_from_length (features : list Feature.t) (idx : nat) :
  List.length (addFeatureIds_from idx features) = List.length features.
Proof.
  revert idx. induction features as [| f rest IH]; intros idx; simpl;
    [reflexivity | rewrite IH; reflexivity].
Qed.

Lemma addFeatureIds_from_truthy (features : list Feature.t) (idx : nat) :
  Forall (fun g => truthy (Feature.id g) = true) (addFeatureIds_from idx features).
Proof.
  revert idx. induction features as [| f rest IH]; intros idx; simpl; constructor.
  - cbn [Feature.id]. unfold or_else.
    destruct (truthy (Feature.id f)) eqn:E; [exact E | reflexivity].
  - apply IH.
Qed.

(** X7.  Loading a feature collection keeps its length and every
    feature's properties and geometry; a feature keeps its own id when that
    is truthy and otherwise gets "feature-" followed by its index; so every
    loaded feature has a truthy id. *)
Theorem addFeatureIds_frame (features : list Feature.t) :
  List.length (addFeatureIds features) = List.length features /\
  Forall (fun g => truthy (Feature.id g) = true) (addFeatureIds features) /\
  forall i f,
    nth_error features i = Some f ->
    exists g,
      nth_error (addFeatureIds features) i = Some g /\
      Feature.properties g = Feature.properties f /\
      Feature.geometry g = Feature.geometry f /\
      Feature.id g =
        if truthy (Feature.id f) then Feature.id f
        else JStr ("feature-" ++ index_String i).
Proof.
  split; [apply addFeatureIds_from_length | split; [apply addFeatureIds_from_truthy |]].
  intros i f Hi. exact (addFeatureIds_from_nth features 0 i f Hi).
Qed.

Lemma addFeatureIds_from_ids (features : list Feature.t) (idx : nat) :
  Forall (fun f => truthy (Feature.id f) = false) features ->
  map Feature.id (addFeatureIds_from idx features) =
  map feature_id_of_index (seq idx (List.length features)).
Proof.
  intros H. revert idx. induction H as [| f rest Hf _ IH]; intros idx; simpl;
    [reflexivity |].
  unfold or_else. rewrite Hf, IH. reflexivity.
Qed.

(** X8.  When no feature of a collection carries an id of its own, the
    ids the loader assigns are pairwise distinct. *)
Theorem addFeatureIds_distinct (features : list Feature.t) :
  Forall (fun f => truthy (Feature.id f) = false) features ->
  NoDup (map Feature.id (addFeatureIds features)).
Proof.
  intros H. unfold addFeatureIds. rewrite (addFeatureIds_from_ids features 0 H).
  apply Finite.Injective_map_NoDup; [| apply seq_NoDup].
  intros i j. apply feature_id_of_index_inj.
Qed.

Lemma addFeatureIds_distinct_witness :
  let bare (geometry : option Geometry) :=
    Feature.mk JUndefined (Some (Feature.mkProperties (JStr "7") JUndefined)) geometry in
  let features := [bare None; bare (Some (Polygon [Sample.square])); bare None] in
  Forall (fun f => truthy (Feature.id f) = false) features /\
  NoDup (map Feature.id (addFeatureIds features)) /\
  map Feature.id (addFeatureIds features) =
    [JStr "feature-0"; JStr "feature-1"; JStr "feature-2"].
Proof.
  intros bare features.
  assert (H : Forall (fun f => truthy (Feature.id f) = false) features)
    by (repeat constructor).
  split; [exact H | split; [exact (addFeatureIds_distinct features H) | reflexivity]].
Defined.

(** A feature that carries the id the loader would give to another one
    is not told apart from it. *)
Example addFeatureIds_collision :
  map Feature.id
    (addFeatureIds [Feature.mk (JStr "feature-1") None None; Feature.mk JUndefined None None])
  = [JStr "feature-1"; JStr "feature-1"].
Proof. reflexivity. Qed.

(** *** Selection and styling *)

(** Only a string is identical to a string, and only the same one. *)
Lemma strict_eq_JStr (v : jsval) (s : string) : strict_eq v (JStr s) = true -> v = JStr s.
Proof.
  destruct v as [| | b | z | t]; simpl; try discriminate.
  intros H. f_equal. apply String.eqb_eq. exact H.
Qed.

(** The border colour [getFeatureStyle] gives tells whether the feature is
    the selected one. *)
Lemma getFeatureStyle_color (wards : list Ward.t) (trafficReduction : float)
    (stations : list Station.t) (selectedFeatureId : jsval) (feature : Feature.t)
    (style : Style) :
  getFeatureStyle wards trafficReduction stations selectedFeatureId feature = Return style ->
  color style =
    (if strict_eq (Feature.id feature) selectedFeatureId
     then "#ffffff" else "rgba(255,255,255,0.3)")%string /\
  weight style = (if strict_eq (Feature.id feature) selectedFeatureId then 3 else 1) /\
  fillOpacity style = (if strict_eq (Feature.id feature) selectedFeatureId then 0.8 else 0.5) /\
  opacity style = (if strict_eq (Feature.id feature) selectedFeatureId then 1 else 0.3).
Proof.
  unfold getFeatureStyle.
  destruct (match findWardForFeature wards (Some feature) with
            | Some ward => Return (Ward.aqi ward)
            | None => getInterpolatedAqi trafficReduction stations (Some feature)
            end) as [aqi |]; cbn [bind]; [| discriminate].
  intros E. injection E as <-. repeat split.
Qed.

Lemma on_click_selects (wards : list Ward.t) (trafficReduction : float)
    (stations : list Station.t) (selectedFeatureId : jsval) (feature : Feature.t)
    (layer : Layer) (now : string) (click : Click) :
  onEachFeature wards trafficReduction stations selectedFeatureId feature = Return layer ->
  on_click layer now = Return click ->
  setSelectedFeatureId click = Feature.id feature.
Proof.
  unfold onEachFeature.
  set (centroid := getFeatureCentroid (Some feature)).
  destruct (findWardForFeature wards (Some feature)) as [ward |]; cbn [bind].
  - intros E. injection E as <-. cbn [on_click].
    intros E. injection E as <-. reflexivity.
  - destruct (getInterpolatedAqi trafficReduction stations (Some feature)) as [aqi |];
      cbn [bind]; [| discriminate].
    intros E. injection E as <-. cbn [on_click].
    destruct centroid; cbn [bind]; [| discriminate].
    intros E. injection E as <-. reflexivity.
Qed.

(** X9.  In a loaded collection whose features carried no ids of their
    own, a click on the feature at index [i] makes [getFeatureStyle] draw
    the feature at index [j] as selected (white border) exactly when
    [i = j]: only the clicked feature is highlighted. *)
Theorem only_clicked_feature_highlighted (features : list Feature.t)
    (wards : list Ward.t) (trafficReduction : float) (stations : list Station.t)
    (selectedFeatureId : jsval) (i j : nat) (fi fj : Feature.t)
    (layer : Layer) (now : string) (click : Click) (style : Style) :
  Forall (fun f => truthy (Feature.id f) = false) features ->
  nth_error (addFeatureIds features) i = Some fi ->
  nth_error (addFeatureIds features) j = Some fj ->
  onEachFeature wards trafficReduction stations selectedFeatureId fi = Return layer ->
  on_click layer now = Return click ->
  getFeatureStyle wards trafficReduction stations (setSelectedFeatureId click) fj
    = Return style ->
  (color style = "#ffffff"%string <-> i = j).
Proof.
  intros Hbare Hi Hj Hlayer Hclick Hstyle.
  rewrite (on_click_selects _ _ _ _ _ _ _ _ Hlayer Hclick) in Hstyle.
  destruct (getFeatureStyle_color _ _ _ _ _ _ Hstyle) as [Hc _]. rewrite Hc.
  assert (Hnd : NoDup (map Feature.id (addFeatureIds features))).
  { unfold addFeatureIds. rewrite (addFeatureIds_from_ids features 0 Hbare).
    apply Finite.Injective_map_NoDup; [| apply seq_NoDup].
    intros a b. apply feature_id_of_index_inj. }
  split.
  - destruct (strict_eq (Feature.id fj) (Feature.id fi)) eqn:E; [| discriminate].
    intros _.
    assert (Hmi : nth_error (map Feature.id (addFeatureIds features)) i = Some (Feature.id fi))
      by (rewrite nth_error_map, Hi; reflexivity).
    assert (Hmj : nth_error (map Feature.id (addFeatureIds features)) j = Some (Feature.id fj))
      by (rewrite nth_error_map, Hj; reflexivity).
    assert (Hstr : exists s, Feature.id fi = JStr s).
    { pose proof (nth_error_In _ _ Hmi) as Hin.
      unfold addFeatureIds in Hin. rewrite (addFeatureIds_from_ids features 0 Hbare) in Hin.
      apply in_map_iff in Hin as [k [Hk _]]. rewrite <- Hk. eexists. reflexivity. }
    destruct Hstr as [s Hs]. rewrite Hs in E. apply strict_eq_JStr in E.
    rewrite <- Hs in E. rewrite E in Hmj. rewrite <- Hmj in Hmi.
    apply (proj1 (NoDup_nth_error _) Hnd); [| exact Hmi].
    apply nth_error_Some. rewrite Hmi, Hmj. discriminate.
  - intros ->. rewrite Hj in Hi. injection Hi as ->.
    rewrite strict_eq_refl. reflexivity.
Qed.

Lemma only_clicked_feature_highlighted_witness :
  let bare :=
    Feature.mk JUndefined (Some (Feature.mkProperties JUndefined JUndefined))
      (Some (Polygon [Sample.square])) in
  let features := [bare; bare; bare] in
  Forall (fun f => truthy (Feature.id f) = false) features /\
  exists f1 style,
    nth_error (addFeatureIds features) 1 = Some f1 /\
    getFeatureStyle [Sample.ward7] 0 [] (Feature.id f1) f1 = Return style /\
    (color style = "#ffffff"%string <-> 1%nat = 1%nat).
Proof.
  intros bare features.
  assert (H : Forall (fun f => truthy (Feature.id f) = false) features)
    by (repeat constructor).
  split; [exact H |].
  eexists. eexists. split; [reflexivity | split; [reflexivity |]].
  exact (only_clicked_feature_highlighted features [Sample.ward7] 0 [] JNull 1 1
           _ _ _ "now" _ _ H eq_refl eq_refl eq_refl eq_refl eq_refl).
Defined.

(** X10.  Leaving a feature with the pointer restores exactly the style
    [getFeatureStyle] gives it: the same fill opacity, border colour,
    weight and opacity, following the selection the same way. *)
Theorem mouseout_restores_style (wards : list Ward.t) (trafficReduction : float)
    (stations : list Station.t) (selectedFeatureId : jsval) (feature : Feature.t)
    (layer : Layer) (style : Style) :
  onEachFeature wards trafficReduction stations selectedFeatureId feature = Return layer ->
  getFeatureStyle wards trafficReduction stations selectedFeatureId feature = Return style ->
  on_mouseout layer =
  {| set_fillOpacity := Some (fillOpacity style);
     set_color := Some (color style);
     set_weight := Some (weight style);
     set_opacity := Some (opacity style) |}.
Proof.
  intros Hlayer Hstyle.
  destruct (getFeatureStyle_color _ _ _ _ _ _ Hstyle) as (-> & -> & -> & ->).
  revert Hlayer. unfold onEachFeature.
  destruct (match findWardForFeature wards (Some feature) with
            | Some ward => Return (Ward.aqi ward)
            | None => getInterpolatedAqi trafficReduction stations (Some feature)
            end) as [aqi |]; cbn [bind]; [| discriminate].
  intros E. injection E as <-. cbn [on_mouseout].
  destruct (strict_eq (Feature.id feature) selectedFeatureId); reflexivity.
Qed.

Lemma mouseout_restores_style_witness :
  exists layer style,
    onEachFeature [Sample.ward7] 0 [] (JStr "feature-3") Sample.feature3 = Return layer /\
    getFeatureStyle [Sample.ward7] 0 [] (JStr "feature-3") Sample.feature3 = Return style /\
    on_mouseout layer =
    {| set_fillOpacity := Some 0.8; set_color := Some "#ffffff"%string;
       set_weight := Some 3; set_opacity := Some 1 |}.
Proof.
  eexists. eexists. split; [reflexivity | split; [reflexivity |]].
  rewrite (mouseout_restores_style [Sample.ward7] 0 [] (JStr "feature-3") Sample.feature3
             _ _ eq_refl eq_refl).
  reflexivity.
Defined.

(** X11.  Closing the details panel clears the selected ward, and once
    the map's effect has reacted to that, no loaded feature is drawn as
    selected, whichever feature was selected before. *)
Theorem close_clears_highlight (st : App.State) (features : list Feature.t)
    (wards : list Ward.t) (trafficReduction : float) (stations : list Station.t)
    (selectedFeatureId : jsval) (feature : Feature.t) (style : Style) :
  In feature (addFeatureIds features) ->
  getFeatureStyle wards trafficReduction stations
    (resetSelectedFeature (App.selectedWard (App.closeDetailsPanel st)) selectedFeatureId)
    feature = Return style ->
  color style = "rgba(255,255,255,0.3)"%string /\ weight style = 1 /\
  fillOpacity style = 0.5 /\ opacity style = 0.3.
Proof.
  intros Hin Hstyle. cbn [App.closeDetailsPanel App.with_selection App.selectedWard
                          resetSelectedFeature] in Hstyle.
  destruct (getFeatureStyle_color _ _ _ _ _ _ Hstyle) as (-> & -> & -> & ->).
  pose proof (addFeatureIds_from_truthy features 0) as Htr.
  rewrite Forall_forall in Htr. specialize (Htr feature Hin).
  replace (strict_eq (Feature.id feature) JNull) with false; [repeat split |].
  destruct (Feature.id feature); try reflexivity; discriminate.
Qed.

Lemma close_clears_highlight_witness :
  exists feature style,
    In feature (addFeatureIds [Sample.feature9]) /\
    getFeatureStyle [Sample.ward7] 0 []
      (resetSelectedFeature (App.selectedWard (App.closeDetailsPanel App.initial))
         (JStr "feature-9"))
      feature = Return style /\
    color style = "rgba(255,255,255,0.3)"%string.
Proof.
  eexists. eexists.
  assert (Hin : In Sample.feature9 (addFeatureIds [Sample.feature9]))
    by (left; reflexivity).
  split; [exact Hin | split; [reflexivity |]].
  exact (proj1 (close_clears_highlight App.initial [Sample.feature9] [Sample.ward7] 0 []
                  (JStr "feature-9") Sample.feature9 _ Hin eq_refl)).
Defined.

(** *** Matching across number and string *)

Lemma digits_nonempty (z : Z) : digits z <> ""%string.
Proof.
  unfold digits. intros E.
  destruct (to_int_proper z) as [H1 H2].
  pose proof (NilZero.isi _ H1 H2) as Hp. rewrite E in Hp. discriminate Hp.
Qed.

Lemma print_large_nonempty (v : Z) : print_large v <> ""%string.
Proof.
  unfold print_large.
  destruct (shortest v) as [[[k s] n] |]; [| apply digits_nonempty].
  destruct (n <=? 21)%Z.
  - pose proof (digits_nonempty s) as Hs.
    destruct (digits s); [contradiction | discriminate].
  - destruct (digits s) as [| d [| d' rest]] eqn:E;
      [apply digits_nonempty | discriminate | discriminate].
Qed.

(** No number prints as the empty string. *)
Lemma String_JInt_nonempty (z : Z) : String.eqb (String_ (JInt z)) "" = false.
Proof.
  destruct (String.eqb_spec (String_ (JInt z)) "") as [E |]; [| reflexivity].
  exfalso. revert E. cbn [String_]. unfold Number_toString.
  destruct (Z.abs z <=? 2 ^ 53)%Z; [apply digits_nonempty |].
  destruct (Number_of_integer z) as [v | negative].
  - destruct (v <? 0)%Z; [discriminate | apply print_large_nonempty].
  - destruct negative; discriminate.
Qed.

(** X12.  Matching does not depend on whether a ward number is written
    as a number or as the string that number prints as: a feature whose
    [Ward_No] is the nonzero number [z] matches exactly the ward matched by
    a feature whose [Ward_No] is the string [String(z)]. *)
Theorem findWardForFeature_number_or_string (wards : list Ward.t) (z : Z)
    (id Ward_Name : jsval) (geometry : option Geometry) :
  z <> 0%Z ->
  findWardForFeature wards
    (Some (Feature.mk id (Some (Feature.mkProperties (JInt z) Ward_Name)) geometry)) =
  findWardForFeature wards
    (Some (Feature.mk id (Some (Feature.mkProperties (JStr (String_ (JInt z))) Ward_Name))
             geometry)).
Proof.
  intros Hz. rewrite !findWardForFeature_eq.
  cbn [feature_Ward_No Feature.properties Feature.Ward_No truthy].
  rewrite String_JInt_nonempty.
  replace (z =? 0)%Z with false by (symmetry; apply Z.eqb_neq; exact Hz).
  reflexivity.
Qed.

Lemma findWardForFeature_number_or_string_witness :
  7%Z <> 0%Z /\
  findWardForFeature [Sample.ward0; Sample.ward7]
    (Some (Feature.mk (JStr "feature-3")
             (Some (Feature.mkProperties (JInt 7) JUndefined)) None)) = Some Sample.ward7.
Proof.
  assert (H : 7%Z <> 0%Z) by discriminate.
  split; [exact H |].
  rewrite (findWardForFeature_number_or_string _ 7 _ _ _ H). reflexivity.
Defined.

(** *** The estimated record in the details panel and on the map *)

Lemma getFeatureCentroid_returns (feature : Feature.t) (c : option LatLon.t) :
  getFeatureCentroid (Some feature) = Return c -> c = Spec.GeometryCentroid feature.
Proof.
  intros H.
  assert (Hg : Feature.geometry feature <> Some (MultiPolygon [])).
  { intros E. unfold getFeatureCentroid in H. rewrite E in H. discriminate H. }
  rewrite (getFeatureCentroid_GeometryCentroid feature Hg) in H. congruence.
Qed.

(** Where the estimated record sits, and where its pollutants are
    interpolated. *)
Lemma resolve_estimated_point (wards : list Ward.t) (trafficReduction : float)
    (stations : list Station.t) (selectedFeatureId : jsval) (feature : Feature.t)
    (now : string) (record : Ward.t) :
  findWardForFeature wards (Some feature) = None ->
  resolve wards trafficReduction stations selectedFeatureId feature now = Return record ->
  Ward.coordinates record = estimation_point feature /\
  Ward.pollutants record = interpolatedPollutants stations (estimation_point feature).
Proof.
  intros Hnone Hres.
  destruct (resolve_estimated _ _ _ _ _ _ _ Hnone Hres)
    as (c & Hc & _ & _ & _ & Hco & Hpol & _).
  apply getFeatureCentroid_returns in Hc. subst c.
  assert (Hpoint : Ward.coordinates record = estimation_point feature).
  { rewrite Hco. unfold estimation_point.
    destruct (Spec.GeometryCentroid feature); reflexivity. }
  split; [exact Hpoint | rewrite Hpol, Hpoint; reflexivity].
Qed.

(** X13.  The record estimated for an unmatched feature sits at the
    vertex mean of the feature's outer ring, or at the centre of Delhi
    when there is no such point; its pollutants are interpolated at that
    same point; and selecting it makes the map fly there. *)
Theorem estimated_record_location (wards : list Ward.t) (trafficReduction : float)
    (stations : list Station.t) (selectedFeatureId : jsval) (feature : Feature.t)
    (now : string) (record : Ward.t) :
  findWardForFeature wards (Some feature) = None ->
  resolve wards trafficReduction stations selectedFeatureId feature now = Return record ->
  Ward.coordinates record = estimation_point feature /\
  Ward.pollutants record = interpolatedPollutants stations (estimation_point feature) /\
  forall backend st,
    MapUpdater (App.selectedWard (fst (App.handleWardClick backend record st))) =
    Some (LatLon.lat (estimation_point feature), LatLon.lon (estimation_point feature), 13).
Proof.
  intros Hnone Hres.
  destruct (resolve_estimated_point _ _ _ _ _ _ _ Hnone Hres) as [Hpoint Hpol].
  split; [exact Hpoint | split; [exact Hpol |]].
  intros backend st. unfold App.handleWardClick.
  destruct (App.isInterpolated record); [| destruct (App.get_ward backend _)];
    cbn; rewrite Hpoint; reflexivity.
Qed.

Lemma estimated_record_location_witness :
  exists record,
    resolve [Sample.ward7] 0 [] JNull Sample.feature_empty_ring "now" = Return record /\
    Ward.coordinates record = LatLon.mk 28.7041 77.1025.
Proof.
  eexists. split; [reflexivity |].
  exact (proj1 (estimated_record_location [Sample.ward7] 0 [] JNull
                  Sample.feature_empty_ring "now" _ eq_refl eq_refl)).
Defined.

Lemma interpolatedPollutants_keys (stations : list Station.t) (centroid : LatLon.t) :
  map fst (interpolatedPollutants stations centroid) = pollutantKeys.
Proof.
  unfold interpolatedPollutants. rewrite map_map.
  rewrite (map_ext _ (fun key => key)); [apply map_id |].
  intros key. destruct (pollutantSums stations centroid key). reflexivity.
Qed.

(** X14.  In the details panel, the estimated record has one entry for
    each pollutant card and no other; a card shows the "--" placeholder
    exactly when the weight sum of its channel at the record's point is not
    above zero, which is the case whenever no station has a reading above
    zero for it, and such a card is never marked high; every pollution
    source of the record has a bar colour, and the shares add up to 100. *)
Theorem estimated_record_in_panel (wards : list Ward.t) (trafficReduction : float)
    (stations : list Station.t) (selectedFeatureId : jsval) (feature : Feature.t)
    (now : string) (record : Ward.t) :
  findWardForFeature wards (Some feature) = None ->
  resolve wards trafficReduction stations selectedFeatureId feature now = Return record ->
  map fst (Ward.pollutants record) = map fst DetailsPanel.cards /\
  (forall key limit,
      In (key, limit) DetailsPanel.cards ->
      (DetailsPanel.cardValue (Ward.pollutants record) key = None <->
       (0 <? fst (pollutantSums stations (estimation_point feature) key)) = false) /\
      (Forall (fun station => contributes key station = false) stations ->
       DetailsPanel.cardValue (Ward.pollutants record) key = None /\
       DetailsPanel.isHigh (Ward.pollutants record) key limit = false)) /\
  Forall (fun source =>
            DetailsPanel.sourceColor DetailsPanel.sourceColors (fst source) <> None)
         (Ward.pollution_breakdown record) /\
  fold_left PrimFloat.add (map snd (Ward.pollution_breakdown record)) 0 = 100.
Proof.
  intros Hnone Hres.
  destruct (resolve_estimated_point _ _ _ _ _ _ _ Hnone Hres) as [_ Hpol].
  destruct (resolve_estimated _ _ _ _ _ _ _ Hnone Hres)
    as (c & _ & _ & _ & _ & _ & _ & _ & _ & Hbreak & _).
  split; [rewrite Hpol; apply interpolatedPollutants_keys | split; [| split]].
  - intros key limit Hin.
    assert (Hkey : In key pollutantKeys).
    { change pollutantKeys with (map fst DetailsPanel.cards).
      apply in_map_iff. exists (key, limit). split; [reflexivity | exact Hin]. }
    unfold DetailsPanel.cardValue, DetailsPanel.isHigh.
    rewrite Hpol, (interpolatedPollutants_key stations _ key Hkey).
    split.
    + destruct (0 <? fst (pollutantSums stations (estimation_point feature) key));
        split; intros H; try reflexivity; discriminate H.
    + intros Hno.
      rewrite pollutantSums_contributors, (filter_none _ _ Hno). split; reflexivity.
  - rewrite Hbreak. repeat constructor; discriminate.
  - rewrite Hbreak. reflexivity.
Qed.

Lemma estimated_record_in_panel_witness :
  exists record,
    resolve [Sample.ward7] 0 [Sample.station 28.70 77.10 (Num 100) (Num 40)] JNull
      Sample.feature9 "now" = Return record /\
    DetailsPanel.cardValue (Ward.pollutants record) "pm25" = Some 40 /\
    DetailsPanel.cardValue (Ward.pollutants record) "o3" = None /\
    map fst (Ward.pollutants record) = map fst DetailsPanel.cards.
Proof.
  eexists. split; [reflexivity | split; [reflexivity |]].
  pose proof (estimated_record_in_panel [Sample.ward7] 0
                [Sample.station 28.70 77.10 (Num 100) (Num 40)] JNull
                Sample.feature9 "now" _ eq_refl eq_refl) as (Hkeys & Hcards & _).
  split; [| exact Hkeys].
  apply (proj2 (Hcards "o3"%string 100 ltac:(do 5 right; left; reflexivity))).
  repeat constructor.
Defined.

Lemma or_else_truthy (v w : jsval) : truthy w = true -> truthy (or_else v w) = true.
Proof. intros H. unfold or_else. destruct (truthy v) eqn:E; [exact E | exact H]. Qed.

(** X15.  The tooltip bound to a feature agrees with the feature's style:
    its AQI colour is the fill colour of the polygon and the colour of the
    AQI it prints; its name is never blank; and it is flagged estimated,
    and names no dominant source, exactly when the feature is unmatched. *)
Theorem tooltip_agrees_with_style (wards : list Ward.t) (trafficReduction : float)
    (stations : list Station.t) (selectedFeatureId : jsval) (feature : Feature.t)
    (layer : Layer) (style : Style) :
  onEachFeature wards trafficReduction stations selectedFeatureId feature = Return layer ->
  getFeatureStyle wards trafficReduction stations selectedFeatureId feature = Return style ->
  tt_color (bindTooltip layer) = fillColor style /\
  tt_color (bindTooltip layer) = getAqiHexColor (tt_aqi (bindTooltip layer)) /\
  truthy (tt_wardName (bindTooltip layer)) = true /\
  (tt_isEstimated (bindTooltip layer) = true <->
   findWardForFeature wards (Some feature) = None) /\
  (tt_dominant_source (bindTooltip layer) = None <->
   findWardForFeature wards (Some feature) = None).
Proof.
  unfold onEachFeature, getFeatureStyle.
  destruct (findWardForFeature wards (Some feature)) as [ward |]; cbn [bind].
  - intros E1 E2. injection E1 as <-. injection E2 as <-.
    cbn [bindTooltip tt_color tt_aqi tt_wardName tt_isEstimated tt_dominant_source
         fillColor].
    repeat split; try discriminate. apply or_else_truthy. reflexivity.
  - destruct (getInterpolatedAqi trafficReduction stations (Some feature)) as [aqi |];
      cbn [bind]; [| discriminate].
    intros E1 E2. injection E1 as <-. injection E2 as <-.
    cbn [bindTooltip tt_color tt_aqi tt_wardName tt_isEstimated tt_dominant_source
         fillColor].
    repeat split. apply or_else_truthy. reflexivity.
Qed.

Lemma tooltip_agrees_with_style_witness :
  exists layer style,
    onEachFeature [Sample.ward7] 0 [] JNull Sample.feature9 = Return layer /\
    getFeatureStyle [Sample.ward7] 0 [] JNull Sample.feature9 = Return style /\
    tt_color (bindTooltip layer) = fillColor style /\
    tt_wardName (bindTooltip layer) = JStr "Unknown Ward".
Proof.
  eexists. eexists. split; [reflexivity | split; [reflexivity |]].
  split; [| reflexivity].
  exact (proj1 (tooltip_agrees_with_style [Sample.ward7] 0 [] JNull Sample.feature9
                  _ _ eq_refl eq_refl)).
Defined.

(** *** The application shell *)

Lemma prefix_append (p s : string) : String.prefix p (p ++ s) = true.
Proof.
  induction p as [| a p IH]; simpl; [destruct s; reflexivity |].
  destruct (ascii_dec a a) as [_ | N]; [exact IH | congruence].
Qed.

(** X16.  A feature that got its id from the loader and matches no ward
    is handled on the client alone: a click on it hands [handleWardClick] a
    record that is recognised as interpolated, so no request is sent and
    the details panel opens on that very record. *)
Theorem generated_id_stays_local (features : list Feature.t) (i : nat) (f g : Feature.t)
    (wards : list Ward.t) (trafficReduction : float) (stations : list Station.t)
    (selectedFeatureId : jsval) (now : string) (record : Ward.t)
    (backend : App.Backend) (st : App.State) :
  nth_error features i = Some f ->
  truthy (Feature.id f) = false ->
  nth_error (addFeatureIds features) i = Some g ->
  findWardForFeature wards (Some g) = None ->
  resolve wards trafficReduction stations selectedFeatureId g now = Return record ->
  App.handleWardClick backend record st =
  ({| App.wards := App.wards st;
      App.selectedWard := Some record;
      App.wardDetails := Some record;
      App.isDetailsPanelOpen := true;
      App.trafficReduction := App.trafficReduction st;
      App.isLoading := App.isLoading st;
      App.error := App.error st;
      App.lastUpdated := App.lastUpdated st |}, []).
Proof.
  intros Hf Hbare Hg Hnone Hres.
  destruct (addFeatureIds_from_nth features 0 i f Hf) as (g' & Hg' & _ & _ & Hid).
  fold (addFeatureIds features) in Hg'.
  rewrite Hg in Hg'. injection Hg' as <-.
  unfold or_else in Hid. rewrite Hbare in Hid. cbn [Nat.add] in Hid.
  destruct (resolve_estimated _ _ _ _ _ _ _ Hnone Hres) as (_ & _ & _ & Hrid & _).
  unfold App.handleWardClick, App.isInterpolated. rewrite Hrid, Hid.
  unfold feature_id_of_index. rewrite prefix_append. reflexivity.
Qed.

Lemma generated_id_stays_local_witness :
  let bare := Feature.mk JUndefined None (Some (Polygon [Sample.square])) in
  exists g record,
    nth_error (addFeatureIds [bare; bare]) 1 = Some g /\
    resolve [Sample.ward7] 0 [] JNull g "now" = Return record /\
    Ward.id record = JStr "feature-1" /\
    snd (App.handleWardClick (App.mkBackend None (fun _ => None) (fun _ => None))
           record App.initial) = [].
Proof.
  intros bare. eexists. eexists.
  split; [reflexivity | split; [reflexivity | split; [reflexivity |]]].
  rewrite (generated_id_stays_local [bare; bare] 1 bare _ [Sample.ward7] 0 [] JNull "now" _
             (App.mkBackend None (fun _ => None) (fun _ => None)) App.initial
             eq_refl eq_refl eq_refl eq_refl eq_refl).
  reflexivity.
Defined.

(** X17.  A feature that carries an id of its own, not of the form
    "feature-...", and matches no ward is looked up on the backend when
    clicked: one GET for [/ward/<id>] is sent.  When that request is
    rejected, the panel opens on the new selection with the details that
    were shown before; the estimated record is not shown. *)
Theorem own_id_goes_to_backend (wards : list Ward.t) (trafficReduction : float)
    (stations : list Station.t) (selectedFeatureId : jsval) (feature : Feature.t)
    (now : string) (record : Ward.t) (backend : App.Backend) (st : App.State) :
  findWardForFeature wards (Some feature) = None ->
  resolve wards trafficReduction stations selectedFeatureId feature now = Return record ->
  (forall id, Feature.id feature = JStr id -> String.prefix "feature-" id = false) ->
  let url := ("http://localhost:8000/ward/" ++ String_ (Feature.id feature))%string in
  snd (App.handleWardClick backend record st) = [App.GET url] /\
  (App.get_ward backend url = None ->
   App.selectedWard (fst (App.handleWardClick backend record st)) = Some record /\
   App.isDetailsPanelOpen (fst (App.handleWardClick backend record st)) = true /\
   App.wardDetails (fst (App.handleWardClick backend record st)) = App.wardDetails st).
Proof.
  intros Hnone Hres Hown url.
  destruct (resolve_estimated _ _ _ _ _ _ _ Hnone Hres) as (_ & _ & _ & Hrid & _).
  unfold App.handleWardClick, App.isInterpolated. rewrite Hrid. fold url.
  assert (Hnot : match Feature.id feature with
                 | JStr id => String.prefix "feature-" id
                 | _ => false
                 end = false).
  { destruct (Feature.id feature) as [| | | | id] eqn:E; try reflexivity.
    apply Hown. reflexivity. }
  rewrite Hnot.
  split.
  - destruct (App.get_ward backend url); reflexivity.
  - intros Hrej. rewrite Hrej. repeat split.
Qed.

Lemma own_id_goes_to_backend_witness :
  let feature := Feature.mk (JInt 12) None (Some (Polygon [Sample.square])) in
  let backend := App.mkBackend None (fun _ => None) (fun _ => None) in
  exists record,
    resolve [Sample.ward7] 0 [] JNull feature "now" = Return record /\
    snd (App.handleWardClick backend record App.initial)
      = [App.GET "http://localhost:8000/ward/12"] /\
    App.wardDetails (fst (App.handleWardClick backend record App.initial)) = None.
Proof.
  intros feature backend. eexists. split; [reflexivity |].
  pose proof (own_id_goes_to_backend [Sample.ward7] 0 [] JNull feature "now" _
                backend App.initial eq_refl eq_refl
                ltac:(intros id E; discriminate E)) as [Hreq Hrej].
  split; [exact Hreq |].
  exact (proj2 (proj2 (Hrej eq_refl))).
Defined.

(** X18.  Selecting a ward and then closing the details panel brings a
    state with nothing selected back to itself, whatever the backend
    answered in between; in any state, closing after a selection is the
    same as closing. *)
Theorem select_then_close (backend : App.Backend) (ward : Ward.t) (st : App.State) :
  App.closeDetailsPanel (fst (App.handleWardClick backend ward st)) =
  App.closeDetailsPanel st /\
  (closed st ->
   App.closeDetailsPanel (fst (App.handleWardClick backend ward st)) = st).
Proof.
  assert (H : App.closeDetailsPanel (fst (App.handleWardClick backend ward st)) =
              App.closeDetailsPanel st).
  { unfold App.handleWardClick.
    destruct (App.isInterpolated ward); [| destruct (App.get_ward backend _)];
      reflexivity. }
  split; [exact H |].
  intros (H1 & H2 & H3). rewrite H.
  destruct st; simpl in *. subst. reflexivity.
Qed.

Lemma select_then_close_witness :
  closed App.initial /\
  App.closeDetailsPanel
    (fst (App.handleWardClick (App.mkBackend None (fun _ => None) (fun _ => Some Sample.ward0))
            Sample.ward7 App.initial)) = App.initial.
Proof.
  assert (H : closed App.initial) by (repeat split).
  split; [exact H |].
  exact (proj2 (select_then_close _ Sample.ward7 App.initial) H).
Defined.

Lemma slider_positive_all :
  forallb (fun p => 0 <? Sidebar.sliderValue p) (Zrange 1 100) = true.
Proof. vm_cast_no_check (eq_refl true). Qed.

(** X19.  Moving the traffic slider to position [p] (0 to 100) sends
    exactly one request: the plain ward list at position 0, otherwise the
    simulation for [p] percent.  Whatever the answer, the scenario
    parameter becomes [p], loading ends and the selection is untouched.
    When the request is rejected the ward list stays as it was and the
    error is set; when it is answered the list is replaced and the error
    cleared. *)
Theorem handleTrafficSimulation_outcome (backend : App.Backend) (now : string) (p : Z)
    (st : App.State) :
  (0 <= p <= 100)%Z ->
  let value := Sidebar.sliderValue p in
  let after := fst (App.handleTrafficSimulation backend now value st) in
  let response :=
    if (p =? 0)%Z then App.get_wards backend else App.post_simulate backend value in
  snd (App.handleTrafficSimulation backend now value st) =
    [if (p =? 0)%Z then App.GET "http://localhost:8000/wards"
     else App.POST_simulate value] /\
  App.trafficReduction after = value /\
  App.isLoading after = false /\
  App.selectedWard after = App.selectedWard st /\
  App.wardDetails after = App.wardDetails st /\
  App.isDetailsPanelOpen after = App.isDetailsPanelOpen st /\
  match response with
  | Some data =>
      App.wards after = data /\ App.error after = None /\
      App.lastUpdated after = Some now
  | None =>
      App.wards after = App.wards st /\ App.error after <> None /\
      App.lastUpdated after = App.lastUpdated st
  end.
Proof.
  intros Hp value after response.
  unfold after, response, value, App.handleTrafficSimulation, App.fetchWards.
  clear after response value.
  destruct (p =? 0)%Z eqn:E.
  - apply Z.eqb_eq in E. subst p.
    change (0 <? Sidebar.sliderValue 0) with false. cbv iota.
    destruct (App.get_wards backend); cbn; repeat split; discriminate.
  - apply Z.eqb_neq in E.
    rewrite (forallb_Zrange _ 1 100 slider_positive_all p ltac:(lia)).
    destruct (App.post_simulate backend (Sidebar.sliderValue p)); cbn;
      repeat split; discriminate.
Qed.

Lemma handleTrafficSimulation_outcome_witness :
  (0 <= 40 <= 100)%Z /\
  snd (App.handleTrafficSimulation (App.mkBackend None (fun _ => None) (fun _ => None))
         "10:00:00" (Sidebar.sliderValue 40) App.initial)
  = [App.POST_simulate 40].
Proof.
  assert (H : (0 <= 40 <= 100)%Z) by lia.
  split; [exact H |].
  exact (proj1 (handleTrafficSimulation_outcome
                  (App.mkBackend None (fun _ => None) (fun _ => None))
                  "10:00:00" 40 App.initial H)).
Defined.

(** *** The leaderboard *)

Section Leaderboard.

Variable universe : list Ward.t.
Hypothesis Hconsistent : consistent universe = true.

Lemma precedes_total (a b : Ward.t) :
  In a universe -> In b universe -> precedes a b = true \/ precedes b a = true.
Proof.
  intros Ha Hb. unfold consistent in Hconsistent.
  rewrite forallb_forall in Hconsistent. specialize (Hconsistent a Ha).
  rewrite forallb_forall in Hconsistent. specialize (Hconsistent b Hb).
  apply andb_prop in Hconsistent as [H _]. apply orb_prop in H. exact H.
Qed.

Lemma precedes_trans (a b c : Ward.t) :
  In a universe -> In b universe -> In c universe ->
  precedes a b = true -> precedes b c = true -> precedes a c = true.
Proof.
  intros Ha Hb Hc Hab Hbc. unfold consistent in Hconsistent.
  rewrite forallb_forall in Hconsistent. specialize (Hconsistent a Ha).
  rewrite forallb_forall in Hconsistent. specialize (Hconsistent b Hb).
  apply andb_prop in Hconsistent as [_ H].
  rewrite forallb_forall in H. specialize (H c Hc).
  rewrite Hab, Hbc in H. exact H.
Qed.

Lemma insert_perm (x : Ward.t) (l : list Ward.t) :
  Permutation (App.insert App.byAqiDescending x l) (x :: l).
Proof.
  induction l as [| y l IH]; simpl; [reflexivity |].
  destruct (0 <? App.byAqiDescending x y); [| reflexivity].
  rewrite IH. apply perm_swap.
Qed.

Lemma sort_perm (l : list Ward.t) : Permutation (App.sort App.byAqiDescending l) l.
Proof.
  induction l as [| x l IH]; simpl; [reflexivity |].
  rewrite insert_perm, IH. reflexivity.
Qed.

Lemma insert_sorted (x : Ward.t) (l : list Ward.t) :
  In x universe -> incl l universe ->
  StronglySorted (fun a b => precedes a b = true) l ->
  StronglySorted (fun a b => precedes a b = true) (App.insert App.byAqiDescending x l).
Proof.
  intros Hx Hl Hs. induction Hs as [| y l Hs IH Hy]; simpl.
  - repeat constructor.
  - assert (Hyu : In y universe) by (apply Hl; left; reflexivity).
    assert (Hlu : incl l universe) by (intros w Hw; apply Hl; right; exact Hw).
    destruct (0 <? App.byAqiDescending x y) eqn:E.
    + constructor; [apply IH; exact Hlu |].
      rewrite Forall_forall. intros w Hw.
      apply (Permutation_in _ (insert_perm x l)) in Hw.
      destruct Hw as [<- | Hw].
      * destruct (precedes_total x y Hx Hyu) as [H | H]; [| exact H].
        unfold precedes in H. rewrite E in H. discriminate H.
      * rewrite Forall_forall in Hy. apply Hy. exact Hw.
    + assert (Hxy : precedes x y = true) by (unfold precedes; rewrite E; reflexivity).
      constructor; [constructor; assumption |].
      constructor; [exact Hxy |].
      rewrite Forall_forall in Hy |- *. intros w Hw.
      apply (precedes_trans x y w Hx Hyu (Hlu w Hw) Hxy). apply Hy. exact Hw.
Qed.

Lemma sort_sorted (l : list Ward.t) :
  incl l universe ->
  StronglySorted (fun a b => precedes a b = true) (App.sort App.byAqiDescending l).
Proof.
  induction l as [| x l IH]; intros Hl; simpl; [constructor |].
  apply insert_sorted.
  - apply Hl. left. reflexivity.
  - intros w Hw. apply (Permutation_in _ (sort_perm l)) in Hw. apply Hl. right. exact Hw.
  - apply IH. intros w Hw. apply Hl. right. exact Hw.
Qed.

End Leaderboard.

Lemma StronglySorted_app {A} (R : A -> A -> Prop) (l1 l2 : list A) :
  StronglySorted R (l1 ++ l2) ->
  StronglySorted R l1 /\ forall a b, In a l1 -> In b l2 -> R a b.
Proof.
  induction l1 as [| x l1 IH]; simpl; intros H.
  - split; [constructor | intros a b []].
  - apply StronglySorted_inv in H as [Hs Hx].
    destruct (IH Hs) as [Hs1 Hcross]. rewrite Forall_forall in Hx. split.
    + constructor; [exact Hs1 |]. rewrite Forall_forall. intros w Hw.
      apply Hx, in_or_app. left. exact Hw.
    + intros a b [<- | Ha] Hb; [apply Hx, in_or_app; right; exact Hb |].
      apply Hcross; assumption.
Qed.

(** X20.  When the comparator [b.aqi - a.aqi] orders the wards
    consistently (any two comparable, and transitively), the leaderboard
    holds five wards, or all of them if there are fewer: it is in descending order
    of AQI, and together with the wards left out it is a rearrangement of
    the ward list in which no ward left out has to stand before a ward of
    the leaderboard. *)
Theorem topPollutedWards_sorted (st : App.State) :
  consistent (App.wards st) = true ->
  List.length (App.topPollutedWards st) = Nat.min 5 (List.length (App.wards st)) /\
  StronglySorted (fun a b => precedes a b = true) (App.topPollutedWards st) /\
  exists rest,
    Permutation (App.topPollutedWards st ++ rest) (App.wards st) /\
    forall t w, In t (App.topPollutedWards st) -> In w rest -> precedes t w = true.
Proof.
  intros Hc. unfold App.topPollutedWards.
  set (sorted := App.sort App.byAqiDescending (App.wards st)).
  assert (Hs : StronglySorted (fun a b => precedes a b = true) sorted)
    by (apply (sort_sorted (App.wards st) Hc); apply incl_refl).
  rewrite <- (firstn_skipn 5 sorted) in Hs.
  destruct (StronglySorted_app _ _ _ Hs) as [Htop Hcross].
  split; [| split; [exact Htop |]].
  - rewrite length_firstn. unfold sorted.
    rewrite (Permutation_length (sort_perm (App.wards st))). reflexivity.
  - exists (skipn 5 sorted). split; [| exact Hcross].
    rewrite firstn_skipn. apply sort_perm.
Qed.

Lemma topPollutedWards_sorted_witness :
  let wards := [Sample.ward (JInt 1) 120; Sample.ward (JInt 2) 310; Sample.ward (JInt 3) 95;
                Sample.ward (JInt 4) 310; Sample.ward (JInt 5) 180; Sample.ward (JInt 6) 45;
                Sample.ward (JInt 7) 260] in
  let st := App.mkState wards None None false 0 false None None in
  consistent (App.wards st) = true /\
  map Ward.id (App.topPollutedWards st) = [JInt 2; JInt 4; JInt 7; JInt 5; JInt 1] /\
  StronglySorted (fun a b => precedes a b = true) (App.topPollutedWards st).
Proof.
  intros wards st.
  assert (H : consistent (App.wards st) = true) by reflexivity.
  split; [exact H | split; [reflexivity |]].
  exact (proj1 (proj2 (topPollutedWards_sorted st H))).
Defined.

(** With a NaN among the AQIs the comparator is not consistent. *)
Example comparator_inconsistent_with_nan :
  consistent [Sample.ward (JInt 1) 120; Sample.ward (JInt 2) nan; Sample.ward (JInt 3) 95]
  = false.
Proof. reflexivity. Qed.
